(** * nvda/nvda.py: the phrase-boundary interrupt-suppression coordinator

    A shallow embedding of [is_nvda_running], [disable_interrupt] (the
    pre:phrase callback) and [enable_interrupt] (the post:phrase callback)
    together with the class-level state [NVDAState], the object store that
    holds the Python list bound to [NVDAState.reenable_commands], the queue of
    one-shot [cron.after] jobs and the log of calls made to the external
    collaborators (client library, settings, scope, file system, IPC
    channel). *)

From Stdlib Require Import String Ascii List ZArith Bool Lia DecimalString.
From Stdlib Require QArith.
From stdpp Require Import base list.
Import ListNotations.

Local Open Scope string_scope.
Local Open Scope list_scope.

(** ** Python strings *)

Module PyStr.

(** [s.startswith(p)] *)
Fixpoint startswith (p s : string) : bool :=
  match p, s with
  | EmptyString, _ => true
  | String a p', String b s' => Ascii.eqb a b && startswith p' s'
  | String _ _, EmptyString => false
  end.

(** The scan of [str.replace] for a non-empty [old]: [skip] counts the
    characters of a match that was just replaced and are still to be
    passed over, so that occurrences are replaced left to right without
    overlap. *)
Fixpoint replace_scan (old new : string) (skip : nat) (s : string) : string :=
  match s with
  | EmptyString => EmptyString
  | String c s' =>
      match skip with
      | S k => replace_scan old new k s'
      | O =>
          if startswith old s
          then new ++ replace_scan old new (String.length old - 1) s'
          else String c (replace_scan old new 0 s')
      end
  end.

(** With an empty [old] Python puts [new] before every character and at
    the end. *)
Fixpoint interleave (new s : string) : string :=
  match s with
  | EmptyString => new
  | String c s' => new ++ String c (interleave new s')
  end.

(** [s.replace(old, new)] *)
Definition replace (s old new : string) : string :=
  match old with
  | EmptyString => interleave new s
  | String _ _ => replace_scan old new 0 s
  end.

(** [str(n)] for an integer, as an f-string prints it *)
Definition of_int (n : Z) : string := NilZero.string_of_int (Z.to_int n).

End PyStr.

(** ** Values carried by an IPC reply *)

Inductive PyValue : Type :=
| PyNone
| PyBool (b : bool)
| PyInt (n : Z)
| PyStr (s : string).

(** Python truthiness, as tested by the guard [if value] *)
Definition truthy (v : PyValue) : bool :=
  match v with
  | PyNone => false
  | PyBool b => b
  | PyInt n => negb (n =? 0)%Z
  | PyStr s => negb (String.eqb s "")
  end.

(** ** Exceptions and outcomes *)

Inductive PyExc : Type :=
| NameError (name : string)
| IpcError (msg : string).

Inductive Outcome (A : Type) : Type :=
| Returns (a : A)
| Raises (e : PyExc).
Arguments Returns {A} a.
Arguments Raises {A} e.

(** ** The store *)

(** References to list objects. *)
Definition ref := nat.

(** [class NVDAState]: two class attributes. [reenable_commands] holds a
    reference to a list object, not the list. *)
Record NVDAState : Type := mkNVDAState {
  pre_phrase_sent : bool;
  reenable_commands : ref
}.

(** The one closure the coordinator creates, the lambda of
    [enable_interrupt]. It has no free local variable: its body names the
    class [NVDAState] and the action registry, both module globals that are
    looked up when the body runs. *)
Inductive Closure : Type :=
| LamSendReenable.

(** A job handed to [cron.after]. *)
Record Job : Type := mkJob {
  delay : string;
  action : Closure
}.

(** Calls that leave the module. *)
Inductive Event : Type :=
| EvScopeGet (key : string)
| EvTestIfRunning
| EvSettingsGet (key : string)
| EvPrint (line : string)
| EvPathExists (path : string)
| EvSendIpc (commands : list string)
| EvCronAfter (j : Job).

Record World : Type := mkWorld {
  nvda : NVDAState;
  heap : list (list string);
  cron_jobs : list Job;
  trace : list Event
}.

(** The list that [NVDAState.reenable_commands] currently refers to. *)
Definition deref (h : list (list string)) (r : ref) : list string :=
  default [] (h !! r).

Definition pending (w : World) : list string :=
  deref (heap w) (reenable_commands (nvda w)).

(** Process start: [pre_phrase_sent = False], [reenable_commands = []]. *)
Definition initial_world : World :=
  {| nvda := {| pre_phrase_sent := false; reenable_commands := 0 |};
     heap := [ [] ];
     cron_jobs := [];
     trace := [] |}.

(** The attribute always refers to an allocated object. *)
Definition well_formed (w : World) : Prop :=
  reenable_commands (nvda w) < length (heap w).

(** ** What the collaborators answer during one call *)

Record Client : Type := mkClient {
  nvdaController_testIfRunning : Z
}.

Record Env : Type := mkEnv {
  os_name : string;
  dll : Client;
  addon_debug : PyValue;
  mode : list string;
  expanduser : string -> string;
  path_exists : string -> bool;
  ipc_reply : list string -> Outcome (list (string * PyValue))
}.

(** ** The monad of the module's code: state, log and exceptions *)

Definition M (A : Type) : Type := World -> Outcome A * World.

Definition ret {A} (a : A) : M A := fun w => (Returns a, w).

Definition bind {A B} (m : M A) (k : A -> M B) : M B :=
  fun w =>
    match m w with
    | (Returns a, w') => k a w'
    | (Raises e, w') => (Raises e, w')
    end.

Definition raise {A} (e : PyExc) : M A := fun w => (Raises e, w).

Declare Scope py_scope.
Delimit Scope py_scope with py.
Notation "'do' x <- m ; k" := (bind m (fun x => k))
  (at level 10, x name, m at level 100, k at level 200, only parsing)
  : py_scope.
Notation "'run' m ; k" := (bind m (fun _ => k))
  (at level 10, m at level 100, k at level 200, only parsing) : py_scope.
Local Open Scope py_scope.

(** The world after some more calls have left the module. *)
Definition add_trace (w : World) (evs : list Event) : World :=
  {| nvda := nvda w; heap := heap w; cron_jobs := cron_jobs w;
     trace := trace w ++ evs |}.

Definition emit (ev : Event) : M unit :=
  fun w => (Returns tt, add_trace w [ev]).

Definition get_state : M NVDAState := fun w => (Returns (nvda w), w).

Definition put_state (s : NVDAState) : M unit :=
  fun w => (Returns tt,
            {| nvda := s; heap := heap w; cron_jobs := cron_jobs w;
               trace := trace w |}).

(** [a or b] on conditions with effects: [b] runs only when [a] is false. *)
Definition or_else (a b : M bool) : M bool :=
  do x <- a; if x then ret true else b.

Definition not_ (a : M bool) : M bool := do x <- a; ret (negb x).

(** ** Module-level definitions (lines 30 to 39) *)

Definition is_nt (e : Env) : bool := String.eqb (os_name e) "nt".

Definition nvda_client (e : Env) : option Client :=
  if is_nt e then Some (dll e) else None.

(** [SPEC_FILE] is bound on Windows only. *)
Definition SPEC_FILE (e : Env) : option string :=
  if is_nt e
  then Some (expanduser e "~\AppData\Roaming\nvda\talon_server_spec.json")
  else None.

(** ** External calls *)

Definition settings_get (e : Env) (key : string) : M PyValue :=
  run emit (EvSettingsGet key); ret (addon_debug e).

Definition print (line : string) : M unit := emit (EvPrint line).

Definition scope_get (e : Env) (key : string) : M (list string) :=
  run emit (EvScopeGet key); ret (mode e).

Definition testIfRunning (c : Client) : M Z :=
  run emit EvTestIfRunning; ret (nvdaController_testIfRunning c).

(** [os.path.exists(SPEC_FILE)]: the name is resolved first. *)
Definition spec_file_exists (e : Env) : M bool :=
  match SPEC_FILE e with
  | None => raise (NameError "SPEC_FILE")
  | Some p => run emit (EvPathExists p); ret (path_exists e p)
  end.

Definition send_ipc_commands (e : Env) (commands : list string)
  : M (list (string * PyValue)) :=
  run emit (EvSendIpc commands);
  match ipc_reply e commands with
  | Returns r => ret r
  | Raises x => raise x
  end.

Definition cron_after (d : string) (c : Closure) : M unit :=
  fun w =>
    let j := {| delay := d; action := c |} in
    (Returns tt,
     {| nvda := nvda w; heap := heap w; cron_jobs := cron_jobs w ++ [j];
        trace := trace w ++ [EvCronAfter j] |}).

(** ** [Actions.is_nvda_running] *)

Definition NVDA_RUNNING_CONSTANT : Z := 0.

Definition is_nvda_running (e : Env) : M bool :=
  (* if os.name != "nt" or not nvda_client: return False *)
  match (if negb (is_nt e) then None else nvda_client e) with
  | None => ret false
  | Some client =>
      do client_response <- testIfRunning client;
      if (client_response =? NVDA_RUNNING_CONSTANT)%Z
      then ret true
      else
        do dbg <- settings_get e "user.addon_debug";
        run (if truthy dbg
             then print ("NVDA not running. Client response value: "
                           ++ PyStr.of_int client_response)
             else ret tt);
        ret false
  end.

(** ** The coordinator *)

(** [for x in xs: body(x)] *)
Fixpoint for_each {A} (xs : list A) (body : A -> M unit) : M unit :=
  match xs with
  | [] => ret tt
  | x :: xs' => run body x; for_each xs' body
  end.

(** [NVDAState.reenable_commands = []]: a new list object is created and
    the attribute is bound to it; the object it referred to before is left
    as it is. *)
Definition rebind_reenable_commands : M unit :=
  fun w =>
    (Returns tt,
     {| nvda := {| pre_phrase_sent := pre_phrase_sent (nvda w);
                   reenable_commands := length (heap w) |};
        heap := heap w ++ [ [] ];
        cron_jobs := cron_jobs w;
        trace := trace w |}).

(** [NVDAState.reenable_commands.append(x)]: the object the attribute refers
    to is extended in place. *)
Definition append_reenable_commands (x : string) : M unit :=
  fun w =>
    (Returns tt,
     {| nvda := nvda w;
        heap := alter (fun l => l ++ [x]) (reenable_commands (nvda w)) (heap w);
        cron_jobs := cron_jobs w;
        trace := trace w |}).

(** [NVDAState.reenable_commands], read through the attribute *)
Definition read_reenable_commands : M (list string) :=
  fun w => (Returns (pending w), w).

Definition set_pre_phrase_sent (b : bool) : M unit :=
  do s <- get_state;
  put_state {| pre_phrase_sent := b;
               reenable_commands := reenable_commands s |}.

(** ["sleep" in scope.get("mode")] *)
Definition sleep_in (modes : list string) : bool :=
  existsb (String.eqb "sleep") modes.

(** The literals of the [case] pattern of [disable_interrupt]. *)
Definition query_commands : list string :=
  [ "getSpeechInterruptForCharacters";
    "getSpeakTypedWords";
    "getSpeakTypedCharacters" ].

Definition matches_case (command : string) : bool :=
  existsb (String.eqb command) query_commands.

Definition commands : list string :=
  [ "getSpeechInterruptForCharacters";
    "getSpeakTypedWords";
    "getSpeakTypedCharacters";
    "disableSpeechInterruptForCharacters";
    "disableSpeakTypedWords";
    "disableSpeakTypedCharacters" ].

(** The body of the [for] loop: the [match] statement with its single
    guarded [case]. *)
Definition record_result (r : string * PyValue) : M unit :=
  let '(command, value) := r in
  if matches_case command && truthy value
  then append_reenable_commands (PyStr.replace command "get" "enable")
  else ret tt.

(** What the loop appends for a reply, in order. *)
Definition recorded (results : list (string * PyValue)) : list string :=
  flat_map (fun r : string * PyValue =>
              if matches_case (fst r) && truthy (snd r)
              then [PyStr.replace (fst r) "get" "enable"] else [])
    results.

(** [disable_interrupt], registered for pre:phrase *)
Definition disable_interrupt (e : Env) : M unit :=
  do modes <- scope_get e "mode";
  let SLEEP_MODE := sleep_in modes in
  do abort <- or_else (not_ (is_nvda_running e))
                (or_else (ret SLEEP_MODE)
                   (not_ (spec_file_exists e)));
  if abort then ret tt
  else
    do results <- send_ipc_commands e commands;
    run rebind_reenable_commands;
    run for_each results record_result;
    set_pre_phrase_sent true.

(** [enable_interrupt], registered for post:phrase *)
Definition enable_interrupt (e : Env) : M unit :=
  do modes <- scope_get e "mode";
  let SLEEP_MODE := sleep_in modes in
  do abort <- or_else (not_ (is_nvda_running e))
                (or_else (do s <- get_state;
                          ret (SLEEP_MODE && negb (pre_phrase_sent s)))
                   (not_ (spec_file_exists e)));
  if abort then ret tt
  else
    do cmds <- read_reenable_commands;
    if (length cmds =? 0)%nat then ret tt
    else
      run cron_after "400ms" LamSendReenable;
      set_pre_phrase_sent false.

(** Running a closure: the body of the lambda is evaluated in the world in
    which the job fires. *)
Definition call_closure (c : Closure) (e : Env) : M unit :=
  match c with
  | LamSendReenable =>
      do cmds <- read_reenable_commands;
      do _r <- send_ipc_commands e cmds;
      ret tt
  end.

(** The timer fires the oldest job: it leaves the queue and its action
    runs. With an empty queue nothing happens. *)
Definition fire (e : Env) : M unit :=
  fun w =>
    match cron_jobs w with
    | [] => (Returns tt, w)
    | j :: js =>
        call_closure (action j) e
          {| nvda := nvda w; heap := heap w; cron_jobs := js;
             trace := trace w |}
    end.

(** ** Views of a world *)

(** The batches handed to the command channel so far, oldest first. *)
Fixpoint sent_batches (t : list Event) : list (list string) :=
  match t with
  | [] => []
  | EvSendIpc cs :: t' => cs :: sent_batches t'
  | _ :: t' => sent_batches t'
  end.

(** The jobs handed to [cron.after] so far, oldest first. *)
Fixpoint scheduled (t : list Event) : list Job :=
  match t with
  | [] => []
  | EvCronAfter j :: t' => j :: scheduled t'
  | _ :: t' => scheduled t'
  end.

(** ** The facts the gates consult *)

(** What [is_nvda_running] answers in [e]. *)
Definition reader_running (e : Env) : bool :=
  is_nt e && (nvdaController_testIfRunning (dll e) =? 0)%Z.

Definition sleep_mode (e : Env) : bool := sleep_in (mode e).

(** Whether the capability file is there; on a platform where the module
    does not define [SPEC_FILE] it counts as absent. *)
Definition marker_present (e : Env) : bool :=
  match SPEC_FILE e with
  | Some p => path_exists e p
  | None => false
  end.

(** The gate of [disable_interrupt] lets the call through. *)
Definition start_gate_open (e : Env) : bool :=
  reader_running e && negb (sleep_mode e) && marker_present e.

(** The gate of [enable_interrupt] lets the call through. *)
Definition end_gate_open (e : Env) (w : World) : bool :=
  reader_running e
  && negb (sleep_mode e && negb (pre_phrase_sent (nvda w)))
  && marker_present e.

(** The calls [is_nvda_running] makes. *)
Definition running_probes (e : Env) : list Event :=
  if is_nt e
  then EvTestIfRunning ::
       (if (nvdaController_testIfRunning (dll e) =? 0)%Z then []
        else EvSettingsGet "user.addon_debug" ::
             (if truthy (addon_debug e)
              then [EvPrint ("NVDA not running. Client response value: "
                               ++ PyStr.of_int
                                    (nvdaController_testIfRunning (dll e)))]
              else []))
  else [].

Definition marker_probes (e : Env) : list Event :=
  match SPEC_FILE e with
  | Some p => [EvPathExists p]
  | None => []
  end.

(** The calls made while the gate of [disable_interrupt] is decided: the
    mode is read, the reader is probed, and the file system is asked only
    when the reader runs and the mode is not sleep. *)
Definition start_gate_probes (e : Env) : list Event :=
  EvScopeGet "mode" :: running_probes e
    ++ (if reader_running e && negb (sleep_mode e)
        then marker_probes e else []).

(** The same for [enable_interrupt]. *)
Definition end_gate_probes (e : Env) (w : World) : list Event :=
  EvScopeGet "mode" :: running_probes e
    ++ (if reader_running e
           && negb (sleep_mode e && negb (pre_phrase_sent (nvda w)))
        then marker_probes e else []).

(** The job [enable_interrupt] schedules. *)
Definition restore_job : Job :=
  {| delay := "400ms"; action := LamSendReenable |}.

(** ** The mapping of the specification

    The static table from a query command to its enable command, and the
    list to restore that it gives for a reply: these two follow the
    specification, not the code, and are compared with the code below. *)
Definition spec_enable_form (query : string) : option string :=
  if String.eqb query "getSpeechInterruptForCharacters"
  then Some "enableSpeechInterruptForCharacters"
  else if String.eqb query "getSpeakTypedWords"
  then Some "enableSpeakTypedWords"
  else if String.eqb query "getSpeakTypedCharacters"
  then Some "enableSpeakTypedCharacters"
  else None.

Definition spec_restore_list (results : list (string * PyValue)) : list string :=
  omap (fun r : string * PyValue =>
          if truthy (snd r) then spec_enable_form (fst r) else None) results.

(** ** Sequences of calls *)

(** What the speech engine and the timer do to the module. A callback that
    raises leaves the world as it was when the exception left it. *)
Inductive Call : Type :=
| PhraseStarted (e : Env)
| PhraseEnded (e : Env)
| TimerFires (e : Env).

Definition step (w : World) (c : Call) : World :=
  match c with
  | PhraseStarted e => snd (disable_interrupt e w)
  | PhraseEnded e => snd (enable_interrupt e w)
  | TimerFires e => snd (fire e w)
  end.

Definition run_calls (cs : list Call) (w : World) : World :=
  fold_left step cs w.

(** A call that cannot rebind [reenable_commands]: anything but a
    phrase start that passes its gate. *)
Definition quiet (c : Call) : bool :=
  match c with
  | PhraseStarted e => negb (start_gate_open e)
  | PhraseEnded _ | TimerFires _ => true
  end.

(** Whether a phrase is open after the calls [cs]: the last phrase
    boundary was a start. A phrase end that arrives when none is open has no
    matching phrase start. *)
Fixpoint phrase_open (cs : list Call) (opened : bool) : bool :=
  match cs with
  | [] => opened
  | PhraseStarted _ :: cs' => phrase_open cs' true
  | PhraseEnded _ :: cs' => phrase_open cs' false
  | TimerFires _ :: cs' => phrase_open cs' opened
  end.

(** ** Concrete situations *)

Definition ack (name : string) : string * PyValue := (name, PyNone).

(** A reply to the six commands with the given three query values. *)
Definition reply (a b c : bool) : list (string * PyValue) :=
  [ ("getSpeechInterruptForCharacters", PyBool a);
    ("getSpeakTypedWords", PyBool b);
    ("getSpeakTypedCharacters", PyBool c);
    ack "disableSpeechInterruptForCharacters";
    ack "disableSpeakTypedWords";
    ack "disableSpeakTypedCharacters" ].

(** Windows, reader running with the given status code, capability file as
    given, the channel answering [r]. *)
Definition windows_env (code : Z) (modes : list string) (marker : bool)
    (r : Outcome (list (string * PyValue))) : Env :=
  {| os_name := "nt";
     dll := {| nvdaController_testIfRunning := code |};
     addon_debug := PyBool false;
     mode := modes;
     expanduser := fun p => p;
     path_exists := fun _ => marker;
     ipc_reply := fun _ => r |}.

(** Awake, reader running, file present. *)
Definition awake_env (a b c : bool) : Env :=
  windows_env 0 ["command"] true (Returns (reply a b c)).

(** Asleep, reader running, file present. *)
Definition asleep_env : Env :=
  windows_env 0 ["sleep"] true (Returns (reply false false false)).

(** The channel fails. *)
Definition broken_channel_env : Env :=
  windows_env 0 ["command"] true (Raises (IpcError "connection refused")).

(** Not on Windows: no client library, no [SPEC_FILE]. *)
Definition posix_env : Env :=
  {| os_name := "posix";
     dll := {| nvdaController_testIfRunning := 0 |};
     addon_debug := PyBool true;
     mode := ["command"];
     expanduser := fun p => p;
     path_exists := fun _ => true;
     ipc_reply := fun _ => Returns [] |}.

(** An environment with the three gate facts as given. *)
Definition env_with_facts (running sleeping marker : bool) : Env :=
  windows_env (if running then 0 else 1717)
    (if sleeping then ["sleep"] else ["command"]) marker
    (Returns (reply true true true)).

(** [e] with another value of the debug setting. *)
Definition with_addon_debug (v : PyValue) (e : Env) : Env :=
  {| os_name := os_name e; dll := dll e; addon_debug := v; mode := mode e;
     expanduser := expanduser e; path_exists := path_exists e;
     ipc_reply := ipc_reply e |}.

(** A world in which a phrase has started and found all three behaviours
    enabled. *)
Definition suppressing_world : World :=
  snd (disable_interrupt (awake_env true true true) initial_world).

(** A world in which a phrase has started and found nothing enabled. *)
Definition nothing_enabled_world : World :=
  snd (disable_interrupt (awake_env false false false) initial_world).

(** A world in which a phrase has started and found the first two
    behaviours enabled. *)
Definition two_enabled_world : World :=
  snd (disable_interrupt (awake_env true true false) initial_world).

(** The race of two phrases: the first phrase ends and schedules its
    restore; the next phrase starts before the timer fires and finds
    every behaviour disabled; then the timer fires. *)
Definition race_scheduled : World :=
  step two_enabled_world (PhraseEnded (awake_env true true false)).

Definition race_next_phrase : World :=
  step race_scheduled (PhraseStarted (awake_env false false false)).

Definition race_fired : World :=
  step race_next_phrase (TimerFires (awake_env false false false)).

(** One whole phrase, start and end. *)
Definition one_phrase : list Call :=
  [ PhraseStarted (awake_env true true true);
    PhraseEnded (awake_env true true true) ].

(** Calls none of which is a phrase start that passes its gate. *)
Definition no_open_start : list Call :=
  [ PhraseEnded (awake_env true true true);
    PhraseStarted asleep_env;
    PhraseEnded posix_env;
    TimerFires (awake_env true true true) ].

(** * The actions around the coordinator

    The scope updater [set_nvda_running_tag], the actions [toggle_nvda],
    [restart_nvda] and [with_nvda_mod_press] of [class Actions], and the
    overrides [nvda_tts] and [tts] of [class UserActions]. They run over the
    world of the coordinator extended with the context's tags, a log of the
    calls to Talon's key, sleep, speech and clipboard interfaces, and the
    jobs these actions hand to [cron.after]. Calls [actions.user.f(...)] of
    an action this file implements run that implementation:
    [actions.user.tts] runs [UserActions.tts] when the context of
    [class UserActions] matches and the implementation outside this file
    otherwise. Calls of implementations outside this file are logged. *)

Inductive GlueExc : Type :=
| CoreExc (x : PyExc)
| AttributeError (attr : string)
| PlainException (msg : string).

Inductive GOutcome (A : Type) : Type :=
| Done (a : A)
| Fails (x : GlueExc).
Arguments Done {A} a.
Arguments Fails {A} x.

(** [lambda: actions.key("enter")] of [toggle_nvda] and [restart_nvda] *)
Inductive UiClosure : Type :=
| LamKeyEnter.

Record UiJob : Type := mkUiJob {
  ui_delay : string;
  ui_action : UiClosure
}.

Inductive UiEvent : Type :=
| UiSettingsGet (key : string)
| UiKey (k : string)
| UiActionsSleep (d : string)
| UiTimeSleep (seconds : QArith_base.Q)
| UiUserTts (text : string)
| UiBaseWinTts (text : string) (interrupt : bool)
| UiSpeakText (text : string)
| UiClipRevertEnter
| UiClipRevertExit
| UiClipSetText (text : string)
| UiCronAfter (j : UiJob).

Record Session : Type := mkSession {
  core : World;
  tags : list string;
  ui : list UiEvent;
  ui_jobs : list UiJob
}.

Record GlueEnv : Type := mkGlueEnv {
  base : Env;
  setting : string -> PyValue;
  WinError : Z -> string
}.

Definition G (A : Type) : Type := Session -> GOutcome A * Session.

Definition gret {A} (a : A) : G A := fun s => (Done a, s).

Definition gbind {A B} (m : G A) (k : A -> G B) : G B :=
  fun s =>
    match m s with
    | (Done a, s') => k a s'
    | (Fails x, s') => (Fails x, s')
    end.

Definition gfail {A} (x : GlueExc) : G A := fun s => (Fails x, s).

(** [try: body except Exception: handler] *)
Definition try_except {A} (body : G A) (handler : G A) : G A :=
  fun s =>
    match body s with
    | (Done a, s') => (Done a, s')
    | (Fails _, s') => handler s'
    end.

Declare Scope glue_scope.
Delimit Scope glue_scope with glue.
Notation "'do' x <- m ; k" := (gbind m (fun x => k))
  (at level 10, x name, m at level 100, k at level 200, only parsing)
  : glue_scope.
Notation "'run' m ; k" := (gbind m (fun _ => k))
  (at level 10, m at level 100, k at level 200, only parsing) : glue_scope.
Local Open Scope glue_scope.

Definition with_core (s : Session) (w : World) : Session :=
  {| core := w; tags := tags s; ui := ui s; ui_jobs := ui_jobs s |}.

Definition add_ui (s : Session) (evs : list UiEvent) : Session :=
  {| core := core s; tags := tags s; ui := ui s ++ evs;
     ui_jobs := ui_jobs s |}.

(** A computation of the coordinator's monad run inside an action. *)
Definition lift {A} (m : M A) : G A :=
  fun s =>
    match m (core s) with
    | (Returns a, w) => (Done a, with_core s w)
    | (Raises x, w) => (Fails (CoreExc x), with_core s w)
    end.

Definition ui_emit (ev : UiEvent) : G unit :=
  fun s => (Done tt, add_ui s [ev]).

(** [ctx.tags = ts] *)
Definition set_tags (ts : list string) : G unit :=
  fun s => (Done tt,
            {| core := core s; tags := ts; ui := ui s;
               ui_jobs := ui_jobs s |}).

Definition glue_settings_get (g : GlueEnv) (key : string) : G PyValue :=
  run ui_emit (UiSettingsGet key); gret (setting g key).

Definition actions_key (k : string) : G unit := ui_emit (UiKey k).

Definition actions_sleep (d : string) : G unit := ui_emit (UiActionsSleep d).

Definition time_sleep (seconds : QArith_base.Q) : G unit :=
  ui_emit (UiTimeSleep seconds).

Definition base_win_tts (text : string) (interrupt : bool) : G unit :=
  ui_emit (UiBaseWinTts text interrupt).

Definition ui_cron_after (d : string) (c : UiClosure) : G unit :=
  fun s =>
    let j := {| ui_delay := d; ui_action := c |} in
    (Done tt,
     {| core := core s; tags := tags s; ui := ui s ++ [UiCronAfter j];
        ui_jobs := ui_jobs s ++ [j] |}).

(** [with clip.revert(): body]: the exit of the context manager runs
    however the body ends, and an exception of the body goes on. *)
Definition with_clip_revert {A} (body : G A) : G A :=
  fun s =>
    match body (add_ui s [UiClipRevertEnter]) with
    | (r, s') => (r, add_ui s' [UiClipRevertExit])
    end.

(** [str(v)], as an f-string formats a value *)
Definition py_str (v : PyValue) : string :=
  match v with
  | PyNone => "None"
  | PyBool true => "True"
  | PyBool false => "False"
  | PyInt n => PyStr.of_int n
  | PyStr s => s
  end.

(** [set_nvda_running_tag], run every three seconds on Windows *)
Definition set_nvda_running_tag (g : GlueEnv) : G unit :=
  try_except
    (do running <- lift (is_nvda_running (base g));
     set_tags (if running then ["user.nvda_running"] else []))
    (set_tags []).

(** [Actions.with_nvda_mod_press] *)
Definition with_nvda_mod_press (g : GlueEnv) (key : string) : G unit :=
  do nvda_key <- glue_settings_get g "user.nvda_key";
  run actions_key (py_str nvda_key ++ ":down");
  run actions_sleep "50ms";
  run actions_key key;
  run actions_sleep "10ms";
  actions_key (py_str nvda_key ++ ":up").

(** [UserActions.nvda_tts]. The module global [nvda_client] is [None]
    outside Windows, where an attribute of it cannot be looked up. *)
Definition nvda_tts (g : GlueEnv) (text : string) (use_clipboard : bool)
  : G unit :=
  match nvda_client (base g) with
  | None => gfail (AttributeError "nvdaController_testIfRunning")
  | Some client =>
      do res <- lift (testIfRunning client);
      if negb (res =? 0)%Z
      then gfail (PlainException
                    ("Error communicating between Talon and NVDA: "
                       ++ WinError g res))
      else if use_clipboard
      then with_clip_revert
             (run ui_emit (UiClipSetText text);
              run actions_sleep "50ms";
              with_nvda_mod_press g "c")
      else ui_emit (UiSpeakText text)
  end.

(** [UserActions.tts]; [nvda_tts] is called with its default
    [use_clipboard=False] *)
Definition tts (g : GlueEnv) (text : string) (interrupt : bool) : G unit :=
  do via_reader <- glue_settings_get g "user.tts_via_screenreader";
  if truthy via_reader
  then nvda_tts g text false
  else base_win_tts text interrupt.

(** Whether the context of [class UserActions] matches: [os: windows] and
    [tag: user.nvda_running]. *)
Definition nvda_context_active (g : GlueEnv) (s : Session) : bool :=
  is_nt (base g) && existsb (String.eqb "user.nvda_running") (tags s).

(** [actions.user.tts(text)] as [class Actions] calls it: with the context
    of [class UserActions] matching, [UserActions.tts] runs with its
    default [interrupt=True]; otherwise the call goes to the implementation
    outside this file. *)
Definition user_tts (g : GlueEnv) (text : string) : G unit :=
  fun s =>
    if nvda_context_active g s
    then tts g text true s
    else ui_emit (UiUserTts text) s.

(** [Actions.toggle_nvda]. The reader is probed once by the [if] and once
    more by the [elif]: [g] answers the first probe and [g'] everything
    after it. *)
Definition toggle_nvda (g g' : GlueEnv) : G unit :=
  do running <- lift (is_nvda_running (base g));
  if negb running then
    run actions_key "ctrl-alt-n";
    user_tts g' "Turning NVDA on"
  else
    do still_running <- lift (is_nvda_running (base g'));
    if still_running then
      run with_nvda_mod_press g' "q";
      run user_tts g' "Turning NVDA off";
      ui_cron_after "2s" LamKeyEnter
    else gret tt.

(** [Actions.restart_nvda]; [time.sleep(0.5)] with the half second as a
    rational *)
Definition restart_nvda (g : GlueEnv) : G unit :=
  do running <- lift (is_nvda_running (base g));
  if running then
    run with_nvda_mod_press g "q";
    run time_sleep (QArith_base.Qmake 1 2);
    run actions_key "down";
    run ui_cron_after "2s" LamKeyEnter;
    user_tts g "Restarting NVDA"
  else gret tt.

(** Running the job of [toggle_nvda] and [restart_nvda] *)
Definition call_ui_closure (c : UiClosure) : G unit :=
  match c with
  | LamKeyEnter => actions_key "enter"
  end.

Local Close Scope glue_scope.

(** The three commands [disable_interrupt] can make pending. *)
Definition enable_commands : list string :=
  [ "enableSpeechInterruptForCharacters";
    "enableSpeakTypedWords";
    "enableSpeakTypedCharacters" ].

(** A batch the module may hand to the channel: the six commands of a
    phrase start, or enable commands only. *)
Definition known_batch (b : list string) : Prop :=
  b = commands \/ Forall (fun c => In c enable_commands) b.

(** What every step keeps: only enable commands are pending, and only known
    batches have been sent. *)
Definition only_known (w : World) : Prop :=
  Forall (fun c => In c enable_commands) (pending w)
  /\ Forall known_batch (sent_batches (trace w)).

(** [w'] differs from [w] by probes only. *)
Definition only_probes (w w' : World) : Prop :=
  nvda w' = nvda w /\ heap w' = heap w /\ cron_jobs w' = cron_jobs w
  /\ sent_batches (trace w') = sent_batches (trace w)
  /\ scheduled (trace w') = scheduled (trace w).

(** A phrase boundary in an environment where sleep mode is active. *)
Definition asleep_boundary (c : Call) : bool :=
  match c with
  | PhraseStarted e | PhraseEnded e => sleep_mode e
  | TimerFires _ => false
  end.

(** A phrase boundary in an environment where the reader does not run or
    the capability file is absent. *)
Definition unavailable_boundary (c : Call) : bool :=
  match c with
  | PhraseStarted e | PhraseEnded e =>
      negb (reader_running e && marker_present e)
  | TimerFires _ => false
  end.

(** The calls [with_nvda_mod_press] makes for a key. *)
Definition mod_press_events (g : GlueEnv) (key : string) : list UiEvent :=
  [ UiSettingsGet "user.nvda_key";
    UiKey (py_str (setting g "user.nvda_key") ++ ":down");
    UiActionsSleep "50ms";
    UiKey key;
    UiActionsSleep "10ms";
    UiKey (py_str (setting g "user.nvda_key") ++ ":up") ].

(** The job of [toggle_nvda] and [restart_nvda] that confirms the exit
    dialog. *)
Definition confirm_job : UiJob :=
  {| ui_delay := "2s"; ui_action := LamKeyEnter |}.

(** The exception of [nvda_tts] for a status code. *)
Definition communication_error (g : GlueEnv) (code : Z) : GlueExc :=
  PlainException
    ("Error communicating between Talon and NVDA: " ++ WinError g code).

(** A computation of an action that leaves the coordinator alone, however
    it ends. *)
Definition core_frame {A} (m : G A) : Prop :=
  forall s, only_probes (core s) (core (snd (m s))).

(** A session in which the tag is set although the reader has stopped. *)
Definition stale_tag_session : Session :=
  {| core := initial_world; tags := ["user.nvda_running"]; ui := [];
     ui_jobs := [] |}.

(** A session around a world of the coordinator. *)
Definition session_of (w : World) : Session :=
  {| core := w; tags := []; ui := []; ui_jobs := [] |}.

(** Settings as the repository ships them: capslock as the NVDA key,
    speech through the screen reader as given. *)
Definition glue_env (e : Env) (via_reader : bool) : GlueEnv :=
  {| base := e;
     setting := fun key =>
       if String.eqb key "user.nvda_key" then PyStr "capslock"
       else if String.eqb key "user.tts_via_screenreader"
       then PyBool via_reader
       else PyNone;
     WinError := fun code =>
       ("[WinError " ++ PyStr.of_int code ++ "]")%string |}.

(** Windows with the reader answering status [code]. *)
Definition status_env (code : Z) : Env :=
  windows_env code ["command"] true (Returns (reply true true true)).

(** * Properties *)

(** ** Evaluation lemmas *)

Ltac norm_app :=
  rewrite <- ?app_assoc; cbn [app]; rewrite <- ?app_assoc; cbn [app].

Lemma add_trace_nil w : add_trace w [] = w.
Proof. destruct w; unfold add_trace; simpl. by rewrite app_nil_r. Qed.

Lemma add_trace_app w a b : add_trace (add_trace w a) b = add_trace w (a ++ b).
Proof. unfold add_trace; simpl. by rewrite app_assoc. Qed.

Lemma is_nvda_running_eval e w :
  is_nvda_running e w = (Returns (reader_running e), add_trace w (running_probes e)).
Proof.
  unfold is_nvda_running, reader_running, running_probes, nvda_client.
  destruct (is_nt e); simpl.
  - unfold testIfRunning, settings_get, print, bind, ret, emit; simpl.
    unfold NVDA_RUNNING_CONSTANT.
    destruct (_ =? 0)%Z; simpl; [done|].
    destruct (truthy (addon_debug e)); simpl; by rewrite !add_trace_app.
  - unfold ret. by rewrite add_trace_nil.
Qed.

Lemma spec_file_exists_eval e w :
  is_nt e = true ->
  spec_file_exists e w = (Returns (marker_present e), add_trace w (marker_probes e)).
Proof.
  intros Hnt. unfold spec_file_exists, marker_present, marker_probes, SPEC_FILE.
  rewrite Hnt. reflexivity.
Qed.

Lemma reader_running_nt e : reader_running e = true -> is_nt e = true.
Proof. unfold reader_running. by intros [? _]%andb_true_iff. Qed.

(** The condition of the [if] of [disable_interrupt]. *)
Lemma start_condition_eval e w :
  or_else (not_ (is_nvda_running e))
    (or_else (ret (sleep_mode e)) (not_ (spec_file_exists e))) w
  = (Returns (negb (start_gate_open e)),
     add_trace w (running_probes e
                    ++ (if reader_running e && negb (sleep_mode e)
                        then marker_probes e else []))).
Proof.
  unfold or_else, not_, bind, ret, start_gate_open.
  rewrite is_nvda_running_eval.
  destruct (reader_running e) eqn:Hrun; simpl.
  - destruct (sleep_mode e); simpl.
    + by rewrite app_nil_r.
    + rewrite spec_file_exists_eval by by apply reader_running_nt.
      by rewrite add_trace_app.
  - by rewrite app_nil_r.
Qed.

(** The condition of the [if] of [enable_interrupt]. *)
Lemma end_condition_eval e w :
  or_else (not_ (is_nvda_running e))
    (or_else (do s <- get_state;
              ret (sleep_mode e && negb (pre_phrase_sent s)))
       (not_ (spec_file_exists e))) w
  = (Returns (negb (end_gate_open e w)),
     add_trace w (running_probes e
                    ++ (if reader_running e
                           && negb (sleep_mode e
                                    && negb (pre_phrase_sent (nvda w)))
                        then marker_probes e else []))).
Proof.
  unfold or_else, not_, bind, ret, get_state, end_gate_open.
  rewrite is_nvda_running_eval.
  destruct (reader_running e) eqn:Hrun; simpl.
  - destruct (sleep_mode e && negb (pre_phrase_sent (nvda w))); simpl.
    + by rewrite app_nil_r.
    + rewrite spec_file_exists_eval by by apply reader_running_nt.
      by rewrite add_trace_app.
  - by rewrite app_nil_r.
Qed.

Lemma sent_batches_app t1 t2 :
  sent_batches (t1 ++ t2) = sent_batches t1 ++ sent_batches t2.
Proof.
  induction t1 as [|ev t1 IH]; simpl; [done|].
  destruct ev; simpl; by rewrite ?IH.
Qed.

Lemma scheduled_app t1 t2 :
  scheduled (t1 ++ t2) = scheduled t1 ++ scheduled t2.
Proof.
  induction t1 as [|ev t1 IH]; simpl; [done|].
  destruct ev; simpl; by rewrite ?IH.
Qed.

Lemma running_probes_silent e :
  sent_batches (running_probes e) = [] /\ scheduled (running_probes e) = [].
Proof.
  unfold running_probes.
  destruct (is_nt e); simpl; [|done].
  destruct (_ =? 0)%Z; simpl; [done|].
  by destruct (truthy (addon_debug e)).
Qed.

Lemma marker_probes_silent e :
  sent_batches (marker_probes e) = [] /\ scheduled (marker_probes e) = [].
Proof. unfold marker_probes. by destruct (SPEC_FILE e). Qed.

Lemma start_gate_probes_silent e :
  sent_batches (start_gate_probes e) = []
  /\ scheduled (start_gate_probes e) = [].
Proof.
  unfold start_gate_probes. simpl.
  rewrite sent_batches_app, scheduled_app.
  destruct (running_probes_silent e) as [-> ->].
  destruct (marker_probes_silent e) as [H1 H2].
  destruct (_ && _); simpl; by rewrite ?H1, ?H2.
Qed.

Lemma end_gate_probes_silent e w :
  sent_batches (end_gate_probes e w) = []
  /\ scheduled (end_gate_probes e w) = [].
Proof.
  unfold end_gate_probes. simpl.
  rewrite sent_batches_app, scheduled_app.
  destruct (running_probes_silent e) as [-> ->].
  destruct (marker_probes_silent e) as [H1 H2].
  destruct (_ && _); simpl; by rewrite ?H1, ?H2.
Qed.

(** [disable_interrupt] when its gate is shut. *)
Lemma disable_interrupt_shut e w :
  start_gate_open e = false ->
  disable_interrupt e w = (Returns tt, add_trace w (start_gate_probes e)).
Proof.
  intros Hgate. unfold disable_interrupt, bind at 1, scope_get, bind at 1, emit.
  cbn [ret]. fold (sleep_mode e). unfold bind at 1.
  rewrite start_condition_eval, Hgate. cbn [negb ret].
  by rewrite add_trace_app.
Qed.

(** [enable_interrupt] when its gate is shut. *)
Lemma enable_interrupt_shut e w :
  end_gate_open e w = false ->
  enable_interrupt e w = (Returns tt, add_trace w (end_gate_probes e w)).
Proof.
  intros Hgate. unfold enable_interrupt, bind at 1, scope_get, bind at 1, emit.
  cbn [ret]. fold (sleep_mode e). unfold bind at 1.
  rewrite end_condition_eval.
  change (end_gate_open e (add_trace w [EvScopeGet "mode"]))
    with (end_gate_open e w).
  rewrite Hgate. cbn [negb ret].
  by rewrite add_trace_app.
Qed.

(** ** The rewrite of the command names *)

Lemma matches_case_cases command :
  matches_case command = true ->
  command = "getSpeechInterruptForCharacters"
  \/ command = "getSpeakTypedWords"
  \/ command = "getSpeakTypedCharacters".
Proof.
  unfold matches_case, query_commands. simpl.
  rewrite !orb_true_iff, !String.eqb_eq. intuition discriminate.
Qed.

(** On the literals of the [case] pattern [replace("get", "enable")] is the
    table of the specification, and the table has no other entry. *)
Lemma spec_enable_form_replace command :
  spec_enable_form command
  = if matches_case command
    then Some (PyStr.replace command "get" "enable") else None.
Proof.
  destruct (matches_case command) eqn:Hm.
  - apply matches_case_cases in Hm as [-> | [-> | ->]]; reflexivity.
  - unfold matches_case, query_commands in Hm. simpl in Hm.
    rewrite orb_false_r in Hm.
    apply orb_false_iff in Hm as [H1 H2].
    apply orb_false_iff in H2 as [H2 H3].
    unfold spec_enable_form. by rewrite H1, H2, H3.
Qed.

(** The loop appends what the table of the specification prescribes. *)
Lemma recorded_spec results : recorded results = spec_restore_list results.
Proof.
  unfold recorded, spec_restore_list.
  induction results as [|[command value] results IH]; [done|].
  cbn [flat_map fst snd]. rewrite IH. simpl.
  rewrite spec_enable_form_replace.
  by destruct (matches_case command), (truthy value).
Qed.

(** ** The loop of [disable_interrupt] *)

Lemma for_each_record_result results : forall w,
  for_each results record_result w
  = (Returns tt,
     {| nvda := nvda w;
        heap := alter (fun l => l ++ recorded results)
                  (reenable_commands (nvda w)) (heap w);
        cron_jobs := cron_jobs w;
        trace := trace w |}).
Proof.
  induction results as [|[command value] results IH]; intros w.
  - simpl. unfold ret. destruct w as [s h c t]; simpl. f_equal. f_equal.
    symmetry. apply list_alter_id. intros x. apply app_nil_r.
  - cbn [for_each]. unfold bind, record_result.
    cbn [recorded flat_map fst snd]. fold (recorded results).
    destruct (matches_case command && truthy value).
    + unfold append_reenable_commands. rewrite IH. cbn [nvda heap cron_jobs trace].
      rewrite list_alter_alter_eq. do 2 f_equal.
      apply list_alter_ext; [|done]. intros x _. simpl.
      by rewrite <- app_assoc.
    + unfold ret. by rewrite IH.
Qed.

(** [disable_interrupt] when its gate is open and the channel answers. *)
Lemma disable_interrupt_open e w results :
  start_gate_open e = true ->
  ipc_reply e commands = Returns results ->
  disable_interrupt e w
  = (Returns tt,
     {| nvda := {| pre_phrase_sent := true;
                   reenable_commands := length (heap w) |};
        heap := heap w ++ [recorded results];
        cron_jobs := cron_jobs w;
        trace := trace w ++ start_gate_probes e ++ [EvSendIpc commands] |}).
Proof.
  intros Hgate Hreply.
  unfold disable_interrupt, bind at 1, scope_get, bind at 1, emit.
  cbn [ret]. fold (sleep_mode e). unfold bind at 1.
  rewrite start_condition_eval, Hgate. cbn [negb].
  unfold bind at 1, send_ipc_commands, bind at 1, emit. rewrite Hreply.
  cbn [ret]. unfold bind at 1, rebind_reenable_commands, bind at 1.
  rewrite for_each_record_result.
  unfold set_pre_phrase_sent, bind, get_state, put_state.
  cbn [nvda heap cron_jobs trace add_trace reenable_commands pre_phrase_sent].
  f_equal. f_equal.
  - replace (length (heap w)) with (length (heap w) + 0) at 1 by lia.
    rewrite alter_app_r. reflexivity.
  - unfold start_gate_probes. by norm_app.
Qed.

(** [disable_interrupt] when its gate is open and the channel raises. *)
Lemma disable_interrupt_channel_raises e w x :
  start_gate_open e = true ->
  ipc_reply e commands = Raises x ->
  disable_interrupt e w
  = (Raises x, add_trace w (start_gate_probes e ++ [EvSendIpc commands])).
Proof.
  intros Hgate Hreply.
  unfold disable_interrupt, bind at 1, scope_get, bind at 1, emit.
  cbn [ret]. fold (sleep_mode e). unfold bind at 1.
  rewrite start_condition_eval, Hgate. cbn [negb].
  unfold bind at 1, send_ipc_commands, bind at 1, emit. rewrite Hreply.
  unfold raise. rewrite !add_trace_app. reflexivity.
Qed.

(** [enable_interrupt] when its gate is open and nothing is pending. *)
Lemma enable_interrupt_nothing_pending e w :
  end_gate_open e w = true ->
  pending w = [] ->
  enable_interrupt e w = (Returns tt, add_trace w (end_gate_probes e w)).
Proof.
  intros Hgate Hpend.
  unfold enable_interrupt, bind at 1, scope_get, bind at 1, emit.
  cbn [ret]. fold (sleep_mode e). unfold bind at 1.
  rewrite end_condition_eval.
  change (end_gate_open e (add_trace w [EvScopeGet "mode"]))
    with (end_gate_open e w).
  rewrite Hgate. cbn [negb].
  unfold bind at 1, read_reenable_commands.
  change (pending (add_trace _ _)) with (pending w). rewrite Hpend.
  cbn [length Nat.eqb ret]. by rewrite add_trace_app.
Qed.

(** [enable_interrupt] when its gate is open and something is pending. *)
Lemma enable_interrupt_schedules e w :
  end_gate_open e w = true ->
  pending w <> [] ->
  enable_interrupt e w
  = (Returns tt,
     {| nvda := {| pre_phrase_sent := false;
                   reenable_commands := reenable_commands (nvda w) |};
        heap := heap w;
        cron_jobs := cron_jobs w ++ [restore_job];
        trace := trace w ++ end_gate_probes e w ++ [EvCronAfter restore_job] |}).
Proof.
  intros Hgate Hpend.
  unfold enable_interrupt, bind at 1, scope_get, bind at 1, emit.
  cbn [ret]. fold (sleep_mode e). unfold bind at 1.
  rewrite end_condition_eval.
  change (end_gate_open e (add_trace w [EvScopeGet "mode"]))
    with (end_gate_open e w).
  rewrite Hgate. cbn [negb].
  unfold bind at 1, read_reenable_commands.
  change (pending (add_trace _ _)) with (pending w).
  destruct (pending w) as [|c cs]; [done|].
  cbn [length Nat.eqb]. rewrite add_trace_app.
  unfold bind, cron_after, set_pre_phrase_sent, bind, get_state, put_state.
  cbn [nvda heap cron_jobs trace add_trace reenable_commands pre_phrase_sent].
  unfold end_gate_probes, restore_job. by norm_app.
Qed.

(** ** The store and the closure *)

Lemma deref_new_object h l : deref (h ++ [l]) (length h) = l.
Proof. unfold deref. by rewrite list_lookup_middle. Qed.

Lemma call_closure_eval e w :
  call_closure LamSendReenable e w
  = (match ipc_reply e (pending w) with
     | Returns _ => Returns tt
     | Raises x => Raises x
     end,
     add_trace w [EvSendIpc (pending w)]).
Proof.
  unfold call_closure, bind at 1, read_reenable_commands, bind at 1.
  unfold send_ipc_commands, bind, emit.
  by destruct (ipc_reply e (pending w)).
Qed.

(** Whatever [enable_interrupt] does, it returns, it sends no batch, and
    both the attribute [reenable_commands] and the object store are as
    before. *)
Lemma enable_interrupt_frame e w :
  exists w',
    enable_interrupt e w = (Returns tt, w')
    /\ reenable_commands (nvda w') = reenable_commands (nvda w)
    /\ heap w' = heap w
    /\ sent_batches (trace w') = sent_batches (trace w).
Proof.
  pose proof (end_gate_probes_silent e w) as [Hsilent _].
  destruct (end_gate_open e w) eqn:Hgate.
  - destruct (pending w) as [|c cs] eqn:Hpend.
    + eexists. split; [by apply enable_interrupt_nothing_pending|].
      cbn [nvda heap trace add_trace].
      by rewrite sent_batches_app, Hsilent, app_nil_r.
    + eexists. split; [apply enable_interrupt_schedules; [done|]|].
      * by rewrite Hpend.
      * cbn [nvda heap trace reenable_commands].
        rewrite !sent_batches_app, Hsilent. simpl. by rewrite app_nil_r.
  - eexists. split; [by apply enable_interrupt_shut|].
    cbn [nvda heap trace add_trace].
    by rewrite sent_batches_app, Hsilent, app_nil_r.
Qed.

(** With nothing pending [enable_interrupt] does nothing, whatever its gate
    decides. *)
Lemma enable_interrupt_noop_when_empty e w :
  pending w = [] ->
  exists w',
    enable_interrupt e w = (Returns tt, w')
    /\ nvda w' = nvda w /\ heap w' = heap w /\ cron_jobs w' = cron_jobs w
    /\ sent_batches (trace w') = sent_batches (trace w)
    /\ scheduled (trace w') = scheduled (trace w).
Proof.
  intros Hpend. exists (add_trace w (end_gate_probes e w)).
  split.
  { destruct (end_gate_open e w) eqn:Hgate.
    - by apply enable_interrupt_nothing_pending.
    - by apply enable_interrupt_shut. }
  cbn [nvda heap cron_jobs trace add_trace].
  rewrite sent_batches_app, scheduled_app.
  destruct (end_gate_probes_silent e w) as [-> ->].
  by rewrite !app_nil_r.
Qed.

(** Firing a job changes neither attribute nor any list object. *)
Lemma fire_frame e w :
  nvda (snd (fire e w)) = nvda w /\ heap (snd (fire e w)) = heap w.
Proof.
  unfold fire. destruct (cron_jobs w) as [|[d []] js]; [done|].
  cbn [action]. by rewrite call_closure_eval.
Qed.

(** A call other than a phrase start that passes its gate leaves the
    pending list alone. *)
Lemma step_quiet_pending w c :
  quiet c = true -> pending (step w c) = pending w.
Proof.
  destruct c as [e|e|e]; cbn [quiet step]; intros Hq.
  - apply negb_true_iff in Hq. by rewrite disable_interrupt_shut.
  - destruct (enable_interrupt_frame e w) as (w' & -> & Hr & Hh & _).
    unfold pending. cbn [snd]. by rewrite Hr, Hh.
  - destruct (fire_frame e w) as [Hn Hh]. unfold pending. by rewrite Hn, Hh.
Qed.

Lemma run_calls_quiet_pending cs : forall w,
  forallb quiet cs = true -> pending (run_calls cs w) = pending w.
Proof.
  induction cs as [|c cs IH]; intros w Hq; [done|].
  cbn [forallb] in Hq. apply andb_true_iff in Hq as [Hc Hcs].
  unfold run_calls. cbn [fold_left]. fold (run_calls cs (step w c)).
  rewrite IH by done. by apply step_quiet_pending.
Qed.

(** The attribute refers to an allocated object in every world the module
    can reach. *)
Lemma step_well_formed w c : well_formed w -> well_formed (step w c).
Proof.
  unfold well_formed. intros Hwf. destruct c as [e|e|e]; cbn [step].
  - destruct (start_gate_open e) eqn:Hgate.
    + destruct (ipc_reply e commands) as [results|x] eqn:Hreply.
      * rewrite (disable_interrupt_open e w results) by done.
        cbn [snd nvda heap reenable_commands]. rewrite length_app. simpl. lia.
      * by rewrite (disable_interrupt_channel_raises e w x).
    + by rewrite disable_interrupt_shut.
  - destruct (enable_interrupt_frame e w) as (w' & -> & Hr & Hh & _).
    cbn [snd]. by rewrite Hr, Hh.
  - destruct (fire_frame e w) as [Hn Hh]. by rewrite Hn, Hh.
Qed.

Lemma reachable_well_formed cs : well_formed (run_calls cs initial_world).
Proof.
  assert (forall w, well_formed w -> well_formed (run_calls cs w)) as H.
  { induction cs as [|c cs IH]; intros w Hwf; [done|].
    unfold run_calls. cbn [fold_left]. apply IH. by apply step_well_formed. }
  apply H. unfold well_formed. simpl. lia.
Qed.

(** All eight combinations of the three gate facts occur. *)
Lemma gate_facts_realisable running sleeping marker :
  reader_running (env_with_facts running sleeping marker) = running
  /\ sleep_mode (env_with_facts running sleeping marker) = sleeping
  /\ marker_present (env_with_facts running sleeping marker) = marker.
Proof. by destruct running, sleeping, marker. Qed.

(** ** The capability probe *)

(** C9: [is_nvda_running] always returns, never raises; it returns [True]
    exactly when the module runs on Windows, the client library is loaded
    and its status call reports code 0, and [False] otherwise (any other
    status code, another platform, no client library); it changes neither
    the coordinator state nor the job queue and sends no command batch; and
    the value of the debug setting, which only decides whether a line is
    printed, does not change the result. *)
Theorem is_nvda_running_total e w :
  exists w',
    is_nvda_running e w = (Returns (reader_running e), w')
    /\ (reader_running e = true
        <-> os_name e = "nt"
            /\ exists client,
                 nvda_client e = Some client
                 /\ nvdaController_testIfRunning client = 0%Z)
    /\ nvda w' = nvda w /\ heap w' = heap w /\ cron_jobs w' = cron_jobs w
    /\ sent_batches (trace w') = sent_batches (trace w)
    /\ (forall v,
          fst (is_nvda_running (with_addon_debug v e) w)
          = Returns (reader_running e)).
Proof.
  exists (add_trace w (running_probes e)).
  split; [apply is_nvda_running_eval|].
  split.
  { unfold reader_running, nvda_client, is_nt.
    rewrite andb_true_iff, String.eqb_eq, Z.eqb_eq.
    split.
    - intros [Hnt Hcode]. split; [done|]. exists (dll e).
      apply String.eqb_eq in Hnt. by rewrite Hnt.
    - intros [Hnt (client & Hclient & Hcode)]. split; [done|].
      apply String.eqb_eq in Hnt. rewrite Hnt in Hclient.
      by injection Hclient as ->. }
  repeat split.
  - cbn [trace add_trace]. rewrite sent_batches_app.
    destruct (running_probes_silent e) as [-> _]. apply app_nil_r.
  - intros v. by rewrite is_nvda_running_eval.
Qed.

(** ** Phrase started *)

(** C2: when the reader is not running, or sleep mode is active, or the
    capability file is absent, [disable_interrupt] returns without sending a
    command batch and without touching the coordinator state, the object
    store or the job queue. The conditions are tested in the order reader,
    sleep, file: after the mode has been read the reader is always probed,
    and the file system is asked only when the reader runs and the mode is
    not sleep. *)
Theorem disable_interrupt_gate e w :
  reader_running e && negb (sleep_mode e) && marker_present e = false ->
  exists w',
    disable_interrupt e w = (Returns tt, w')
    /\ nvda w' = nvda w /\ heap w' = heap w /\ cron_jobs w' = cron_jobs w
    /\ sent_batches (trace w') = sent_batches (trace w)
    /\ trace w'
       = trace w
           ++ EvScopeGet "mode" :: running_probes e
           ++ (if reader_running e && negb (sleep_mode e)
               then marker_probes e else []).
Proof.
  intros Hgate. exists (add_trace w (start_gate_probes e)).
  split; [by apply disable_interrupt_shut|].
  repeat split.
  cbn [trace add_trace]. rewrite sent_batches_app.
  destruct (start_gate_probes_silent e) as [-> _]. apply app_nil_r.
Qed.

Lemma disable_interrupt_gate_witness :
  reader_running asleep_env && negb (sleep_mode asleep_env)
    && marker_present asleep_env = false
  /\ exists w',
       disable_interrupt asleep_env suppressing_world = (Returns tt, w')
       /\ nvda w' = nvda suppressing_world
       /\ heap w' = heap suppressing_world
       /\ cron_jobs w' = cron_jobs suppressing_world
       /\ sent_batches (trace w') = sent_batches (trace suppressing_world)
       /\ trace w'
          = trace suppressing_world
              ++ [EvScopeGet "mode"; EvTestIfRunning].
Proof.
  split; [reflexivity|].
  apply (disable_interrupt_gate asleep_env suppressing_world). reflexivity.
Defined.

(** C3: when the gate is open and the channel answers [results],
    [disable_interrupt] sends the six commands as one batch and leaves
    [reenable_commands] bound to exactly the enable forms of the query
    results with a truthy value, in the order of the reply; query results
    with a falsy value and the results of other commands add nothing. The
    flag [pre_phrase_sent] is set. *)
Theorem disable_interrupt_sets_pending e w results :
  start_gate_open e = true ->
  ipc_reply e commands = Returns results ->
  exists w',
    disable_interrupt e w = (Returns tt, w')
    /\ pending w' = spec_restore_list results
    /\ pre_phrase_sent (nvda w') = true
    /\ sent_batches (trace w') = sent_batches (trace w) ++ [commands].
Proof.
  intros Hgate Hreply. eexists.
  split; [by apply disable_interrupt_open|].
  unfold pending. cbn [nvda heap trace reenable_commands pre_phrase_sent].
  split; [by rewrite deref_new_object, recorded_spec|]. split; [done|].
  rewrite !sent_batches_app.
  destruct (start_gate_probes_silent e) as [-> _]. reflexivity.
Qed.

(** The reply (getA, true), (getB, false), (getC, true) gives enableA,
    enableC. *)
Lemma disable_interrupt_sets_pending_witness :
  start_gate_open (awake_env true false true) = true
  /\ ipc_reply (awake_env true false true) commands
     = Returns (reply true false true)
  /\ exists w',
       disable_interrupt (awake_env true false true) initial_world
       = (Returns tt, w')
       /\ pending w'
          = [ "enableSpeechInterruptForCharacters";
              "enableSpeakTypedCharacters" ]
       /\ pre_phrase_sent (nvda w') = true
       /\ sent_batches (trace w') = [commands].
Proof.
  split; [reflexivity|]. split; [reflexivity|].
  apply (disable_interrupt_sets_pending (awake_env true false true)
           initial_world (reply true false true)); reflexivity.
Defined.

(** ** Phrase ended *)

(** C4: with the reader running, the capability file present, sleep mode
    active and [pre_phrase_sent] true, [enable_interrupt] is not stopped by
    its gate: with a non-empty pending list it schedules the restore job. *)
Theorem enable_interrupt_sleep_carry_over e w :
  reader_running e = true ->
  sleep_mode e = true ->
  marker_present e = true ->
  pre_phrase_sent (nvda w) = true ->
  pending w <> [] ->
  exists w',
    enable_interrupt e w = (Returns tt, w')
    /\ cron_jobs w' = cron_jobs w ++ [restore_job]
    /\ scheduled (trace w') = scheduled (trace w) ++ [restore_job].
Proof.
  intros Hrun Hsleep Hmark Hsent Hpend. eexists.
  split.
  { apply enable_interrupt_schedules; [|done].
    unfold end_gate_open. by rewrite Hrun, Hsleep, Hmark, Hsent. }
  cbn [cron_jobs trace]. split; [done|].
  rewrite !scheduled_app.
  destruct (end_gate_probes_silent e w) as [_ ->]. reflexivity.
Qed.

Lemma enable_interrupt_sleep_carry_over_witness :
  reader_running asleep_env = true
  /\ sleep_mode asleep_env = true
  /\ marker_present asleep_env = true
  /\ pre_phrase_sent (nvda suppressing_world) = true
  /\ pending suppressing_world
     = [ "enableSpeechInterruptForCharacters";
         "enableSpeakTypedWords";
         "enableSpeakTypedCharacters" ]
  /\ exists w',
       enable_interrupt asleep_env suppressing_world = (Returns tt, w')
       /\ cron_jobs w' = [restore_job]
       /\ scheduled (trace w') = [restore_job].
Proof.
  repeat (split; [reflexivity|]).
  apply (enable_interrupt_sleep_carry_over asleep_env suppressing_world);
    [reflexivity | reflexivity | reflexivity | reflexivity |].
  vm_compute. discriminate.
Defined.

(** C5, as the code has it: when [enable_interrupt] passes its gate and the
    pending list is not empty, [pre_phrase_sent] is false as soon as the
    call returns; the restore job is then still in the queue and no batch
    has been sent. *)
Theorem enable_interrupt_resets_flag e w :
  end_gate_open e w = true ->
  pending w <> [] ->
  exists w',
    enable_interrupt e w = (Returns tt, w')
    /\ pre_phrase_sent (nvda w') = false
    /\ cron_jobs w' = cron_jobs w ++ [restore_job]
    /\ sent_batches (trace w') = sent_batches (trace w).
Proof.
  intros Hgate Hpend. eexists.
  split; [by apply enable_interrupt_schedules|].
  cbn [nvda cron_jobs trace pre_phrase_sent]. split; [done|]. split; [done|].
  rewrite !sent_batches_app.
  destruct (end_gate_probes_silent e w) as [-> _]. simpl. apply app_nil_r.
Qed.

Lemma enable_interrupt_resets_flag_witness :
  end_gate_open (awake_env true true true) suppressing_world = true
  /\ pre_phrase_sent (nvda suppressing_world) = true
  /\ exists w',
       enable_interrupt (awake_env true true true) suppressing_world
       = (Returns tt, w')
       /\ pre_phrase_sent (nvda w') = false
       /\ cron_jobs w' = [restore_job]
       /\ sent_batches (trace w') = [commands].
Proof.
  split; [reflexivity|]. split; [reflexivity|].
  apply (enable_interrupt_resets_flag (awake_env true true true)
           suppressing_world); [reflexivity|].
  vm_compute. discriminate.
Defined.

(** C5, as stated, fails when nothing is pending: a phrase started with no
    behaviour enabled, and the phrase end that follows passes the gate and
    returns with [pre_phrase_sent] still true. *)
Lemma enable_interrupt_flag_survives_empty :
  end_gate_open (awake_env false false false) nothing_enabled_world = true
  /\ pending nothing_enabled_world = []
  /\ pre_phrase_sent (nvda nothing_enabled_world) = true
  /\ fst (enable_interrupt (awake_env false false false)
            nothing_enabled_world) = Returns tt
  /\ pre_phrase_sent
       (nvda (snd (enable_interrupt (awake_env false false false)
                     nothing_enabled_world))) = true.
Proof. repeat split. Qed.

(** C6: when [enable_interrupt] passes its gate and the pending list is
    empty, [cron.after] is not called and [pre_phrase_sent] is not reset:
    both attributes, the object store and the job queue are as before. *)
Theorem enable_interrupt_empty_noop e w :
  end_gate_open e w = true ->
  pending w = [] ->
  exists w',
    enable_interrupt e w = (Returns tt, w')
    /\ scheduled (trace w') = scheduled (trace w)
    /\ cron_jobs w' = cron_jobs w
    /\ pre_phrase_sent (nvda w') = pre_phrase_sent (nvda w)
    /\ nvda w' = nvda w /\ heap w' = heap w.
Proof.
  intros Hgate Hpend. exists (add_trace w (end_gate_probes e w)).
  split; [by apply enable_interrupt_nothing_pending|].
  repeat split.
  cbn [trace add_trace]. rewrite scheduled_app.
  destruct (end_gate_probes_silent e w) as [_ ->]. apply app_nil_r.
Qed.

Lemma enable_interrupt_empty_noop_witness :
  end_gate_open (awake_env false false false) nothing_enabled_world = true
  /\ pending nothing_enabled_world = []
  /\ exists w',
       enable_interrupt (awake_env false false false) nothing_enabled_world
       = (Returns tt, w')
       /\ scheduled (trace w') = []
       /\ cron_jobs w' = []
       /\ pre_phrase_sent (nvda w') = true
       /\ nvda w' = nvda nothing_enabled_world
       /\ heap w' = heap nothing_enabled_world.
Proof.
  split; [reflexivity|]. split; [reflexivity|].
  apply (enable_interrupt_empty_noop (awake_env false false false)
           nothing_enabled_world); reflexivity.
Defined.

(** C10: [enable_interrupt] never changes the pending list. Whichever path
    it takes it returns with the attribute [reenable_commands] bound to the
    same object and every list object as before; the list is not cleared
    when the restore is scheduled. Firing a job does not change it either,
    and [disable_interrupt] changes it only when its gate is open. *)
Theorem enable_interrupt_keeps_pending e w :
  exists w',
    enable_interrupt e w = (Returns tt, w')
    /\ reenable_commands (nvda w') = reenable_commands (nvda w)
    /\ heap w' = heap w
    /\ pending w' = pending w
    /\ pending (snd (fire e w)) = pending w
    /\ (start_gate_open e = true
        \/ pending (snd (disable_interrupt e w)) = pending w).
Proof.
  destruct (enable_interrupt_frame e w) as (w' & Hrun & Hr & Hh & _).
  exists w'. repeat (split; [done|]).
  split; [unfold pending; by rewrite Hr, Hh|].
  split; [apply (step_quiet_pending w (TimerFires e)); done|].
  destruct (start_gate_open e) eqn:Hgate; [by left|right].
  apply (step_quiet_pending w (PhraseStarted e)). cbn [quiet].
  by rewrite Hgate.
Qed.

(** ** The deferred restore *)

(** What the scheduled action does: a phrase end that passes its gate with
    a non-empty pending list schedules one job with the delay 400ms whose
    action captures nothing. When the action runs it sends the list that
    [reenable_commands] refers to in the world in which it runs; this is the
    list of scheduling time only if no phrase start passed its gate in
    between. *)
Lemma deferred_restore_reads_live_state e w between e_fire :
  end_gate_open e w = true ->
  pending w <> [] ->
  exists w1,
    enable_interrupt e w = (Returns tt, w1)
    /\ cron_jobs w1
       = cron_jobs w ++ [ {| delay := "400ms"; action := LamSendReenable |} ]
    /\ let w2 := run_calls between w1 in
       let w3 := snd (call_closure (action restore_job) e_fire w2) in
       sent_batches (trace w3) = sent_batches (trace w2) ++ [pending w2]
       /\ (forallb quiet between = true -> pending w2 = pending w).
Proof.
  intros Hgate Hpend. eexists.
  split; [by apply enable_interrupt_schedules|].
  split; [done|]. cbn zeta. split.
  - cbn [action restore_job]. rewrite call_closure_eval.
    cbn [snd trace add_trace]. by rewrite sent_batches_app.
  - intros Hq. by rewrite run_calls_quiet_pending.
Qed.

Lemma deferred_restore_reads_live_state_witness :
  end_gate_open (awake_env true true false) two_enabled_world = true
  /\ pending two_enabled_world
     = [ "enableSpeechInterruptForCharacters"; "enableSpeakTypedWords" ]
  /\ exists w1,
       enable_interrupt (awake_env true true false) two_enabled_world
       = (Returns tt, w1)
       /\ cron_jobs w1 = [restore_job]
       /\ let w2 := run_calls no_open_start w1 in
          let w3 :=
            snd (call_closure (action restore_job)
                   (awake_env true true false) w2) in
          sent_batches (trace w3) = sent_batches (trace w2) ++ [pending w2]
          /\ (forallb quiet no_open_start = true ->
              pending w2 = pending two_enabled_world).
Proof.
  split; [reflexivity|]. split; [reflexivity|].
  apply (deferred_restore_reads_live_state (awake_env true true false)
           two_enabled_world no_open_start (awake_env true true false));
    [reflexivity|].
  vm_compute. discriminate.
Defined.

(** C1: the code does not send the list of scheduling time when the next
    phrase starts before the timer fires. The first phrase finds two
    behaviours enabled, disables them, and its phrase end schedules the
    restore with the delay 400ms; the next phrase start rebinds
    [reenable_commands] to an empty list, the behaviours being disabled
    still; the job of the first phrase then sends the empty list, although
    the list object of the first phrase is still in the store, unchanged.
    The batches sent are the six commands twice and the empty list: what
    was enabled before the first phrase is not enabled again. *)
Lemma deferred_restore_not_a_snapshot :
  end_gate_open (awake_env true true false) two_enabled_world = true
  /\ pending two_enabled_world
     = [ "enableSpeechInterruptForCharacters"; "enableSpeakTypedWords" ]
  /\ cron_jobs race_scheduled = [restore_job]
  /\ delay restore_job = "400ms"
  /\ pending race_next_phrase = []
  /\ sent_batches (trace race_fired)
     = sent_batches (trace race_next_phrase) ++ [ [] ]
  /\ sent_batches (trace race_fired) = [ commands; commands; [] ]
  /\ last (sent_batches (trace race_fired)) <> Some (pending two_enabled_world)
  /\ deref (heap race_fired) (reenable_commands (nvda two_enabled_world))
     = [ "enableSpeechInterruptForCharacters"; "enableSpeakTypedWords" ].
Proof. repeat split. vm_compute. discriminate. Qed.

(** ** Failure of the channel *)

(** C7, as the code has it: when [disable_interrupt] raises, the exception
    is the one the command channel raised on the batch of six commands, and
    both attributes, the object store and the job queue are as they were
    before the call. [enable_interrupt] in the same situation returns and
    sends no batch, and running a job changes no state whatever the channel
    does. *)
Theorem channel_error_leaves_state e w x :
  fst (disable_interrupt e w) = Raises x ->
  ipc_reply e commands = Raises x
  /\ nvda (snd (disable_interrupt e w)) = nvda w
  /\ heap (snd (disable_interrupt e w)) = heap w
  /\ cron_jobs (snd (disable_interrupt e w)) = cron_jobs w
  /\ sent_batches (trace (snd (disable_interrupt e w)))
     = sent_batches (trace w) ++ [commands]
  /\ (exists w',
        enable_interrupt e w = (Returns tt, w')
        /\ sent_batches (trace w') = sent_batches (trace w))
  /\ nvda (snd (fire e w)) = nvda w
  /\ heap (snd (fire e w)) = heap w.
Proof.
  intros Hraise.
  destruct (start_gate_open e) eqn:Hgate.
  2:{ by rewrite disable_interrupt_shut in Hraise. }
  destruct (ipc_reply e commands) as [results|x'] eqn:Hreply.
  { by rewrite (disable_interrupt_open e w results) in Hraise. }
  rewrite (disable_interrupt_channel_raises e w x') in * by done.
  cbn [fst snd nvda heap cron_jobs trace add_trace] in *.
  injection Hraise as ->.
  repeat (split; [done|]).
  split.
  { rewrite !sent_batches_app.
    destruct (start_gate_probes_silent e) as [-> _]. reflexivity. }
  split.
  { destruct (enable_interrupt_frame e w) as (w' & Hret & _ & _ & Hsent).
    by exists w'. }
  apply fire_frame.
Qed.

Lemma channel_error_leaves_state_witness :
  fst (disable_interrupt broken_channel_env suppressing_world)
  = Raises (IpcError "connection refused")
  /\ nvda (snd (disable_interrupt broken_channel_env suppressing_world))
     = nvda suppressing_world
  /\ heap (snd (disable_interrupt broken_channel_env suppressing_world))
     = heap suppressing_world
  /\ exists w',
       enable_interrupt broken_channel_env suppressing_world
       = (Returns tt, w').
Proof.
  split; [reflexivity|].
  destruct (channel_error_leaves_state broken_channel_env suppressing_world
              (IpcError "connection refused") eq_refl)
    as (_ & Hn & Hh & _ & _ & (w' & Hret & _) & _).
  split; [exact Hn|]. split; [exact Hh|]. exists w'. exact Hret.
Defined.

(** C7, as stated, fails: with the gate open and the channel raising,
    [disable_interrupt] raises the channel's exception into its caller. *)
Lemma disable_interrupt_raises_channel_error :
  start_gate_open broken_channel_env = true
  /\ ipc_reply broken_channel_env commands
     = Raises (IpcError "connection refused")
  /\ fst (disable_interrupt broken_channel_env initial_world)
     = Raises (IpcError "connection refused").
Proof. repeat split. Qed.

(** ** A phrase end with no phrase start *)

(** C8, as the code has it: a phrase end, matched by a phrase start or
    not, does nothing whenever the pending list is empty (no phrase start
    has passed its gate yet, or the last one that did found nothing
    enabled) or its gate is shut: it returns, sends no batch, schedules no
    job and leaves both attributes, the object store and the job queue as
    they were. *)
Theorem phrase_end_noop_unless_restore_pending e w :
  pending w = [] \/ end_gate_open e w = false ->
  exists w',
    enable_interrupt e w = (Returns tt, w')
    /\ nvda w' = nvda w /\ heap w' = heap w /\ cron_jobs w' = cron_jobs w
    /\ sent_batches (trace w') = sent_batches (trace w)
    /\ scheduled (trace w') = scheduled (trace w).
Proof.
  intros [Hpend|Hgate]; [by apply enable_interrupt_noop_when_empty|].
  exists (add_trace w (end_gate_probes e w)).
  split; [by apply enable_interrupt_shut|].
  cbn [nvda heap cron_jobs trace add_trace].
  rewrite sent_batches_app, scheduled_app.
  destruct (end_gate_probes_silent e w) as [-> ->].
  by rewrite !app_nil_r.
Qed.

(** A phrase that found nothing enabled, start and end, and then a phrase
    end with no phrase start before it. *)
Lemma phrase_end_noop_unless_restore_pending_witness :
  phrase_open [ PhraseStarted (awake_env false false false);
                PhraseEnded (awake_env false false false) ] false = false
  /\ end_gate_open (awake_env false false false)
       (run_calls [ PhraseStarted (awake_env false false false);
                    PhraseEnded (awake_env false false false) ]
          initial_world) = true
  /\ pending (run_calls [ PhraseStarted (awake_env false false false);
                          PhraseEnded (awake_env false false false) ]
                initial_world) = []
  /\ exists w',
       enable_interrupt (awake_env false false false)
         (run_calls [ PhraseStarted (awake_env false false false);
                      PhraseEnded (awake_env false false false) ]
            initial_world) = (Returns tt, w')
       /\ cron_jobs w' = []
       /\ sent_batches (trace w') = [commands]
       /\ scheduled (trace w') = [].
Proof.
  split; [reflexivity|]. split; [reflexivity|]. split; [reflexivity|].
  destruct (phrase_end_noop_unless_restore_pending
              (awake_env false false false)
              (run_calls [ PhraseStarted (awake_env false false false);
                           PhraseEnded (awake_env false false false) ]
                 initial_world) (or_introl eq_refl))
    as (w' & Hret & _ & _ & Hjobs & Hsent & Hsched).
  exists w'. split; [exact Hret|].
  split; [exact Hjobs|]. split; [exact Hsent|exact Hsched].
Defined.

(** C8, as stated, fails: after one whole phrase no phrase is open, yet a
    further phrase end passes the gate, finds the list of that phrase still
    pending and schedules the restore a second time. *)
Lemma unmatched_phrase_end_schedules_again :
  phrase_open one_phrase false = false
  /\ cron_jobs (run_calls one_phrase initial_world) = [restore_job]
  /\ fst (enable_interrupt (awake_env true true true)
            (run_calls one_phrase initial_world)) = Returns tt
  /\ cron_jobs (snd (enable_interrupt (awake_env true true true)
                       (run_calls one_phrase initial_world)))
     = [restore_job; restore_job]
  /\ scheduled (trace (snd (enable_interrupt (awake_env true true true)
                              (run_calls one_phrase initial_world))))
     = [restore_job; restore_job].
Proof. repeat split. Qed.

(** * Further properties of the coordinator *)

(** ** A whole phrase *)

(** X1: one phrase from start to restore. When the phrase start passes its
    gate and the reply names at least one enabled behaviour, the phrase end
    that follows schedules the restore whether or not sleep mode has set in
    meanwhile, and the job, fired before any other call, sends exactly the
    enable forms of the behaviours the reply reported enabled. Two batches
    are sent in all, the job queue is empty again and [pre_phrase_sent] is
    false. *)
Theorem phrase_cycle_restores e_start e_end e_fire w results :
  cron_jobs w = [] ->
  start_gate_open e_start = true ->
  ipc_reply e_start commands = Returns results ->
  reader_running e_end = true ->
  marker_present e_end = true ->
  spec_restore_list results <> [] ->
  let w' :=
    run_calls [PhraseStarted e_start; PhraseEnded e_end; TimerFires e_fire] w
  in
  sent_batches (trace w')
  = sent_batches (trace w) ++ [commands; spec_restore_list results]
  /\ cron_jobs w' = []
  /\ pre_phrase_sent (nvda w') = false
  /\ pending w' = spec_restore_list results.
Proof.
  intros Hqueue Hgate Hreply Hrun Hmark Hsome. cbn zeta.
  unfold run_calls. cbn [fold_left step].
  rewrite (disable_interrupt_open e_start w results) by done. cbn [snd].
  set (w1 := {| nvda := _ |}).
  assert (pending w1 = spec_restore_list results) as Hpend.
  { unfold pending, w1. cbn [nvda heap reenable_commands].
    by rewrite deref_new_object, recorded_spec. }
  rewrite (enable_interrupt_schedules e_end w1).
  2:{ unfold end_gate_open. rewrite Hrun, Hmark. cbn [w1 nvda pre_phrase_sent].
      by rewrite andb_false_r. }
  2:{ by rewrite Hpend. }
  cbn [snd]. unfold fire. cbn [cron_jobs w1]. rewrite Hqueue. cbn [app action restore_job].
  rewrite call_closure_eval. cbn [snd].
  set (w2 := {| nvda := _ |}).
  assert (pending w2 = spec_restore_list results) as Hpend2.
  { rewrite <- Hpend. reflexivity. }
  rewrite Hpend2. cbn [trace add_trace w2 w1 nvda cron_jobs pre_phrase_sent].
  repeat split; try done.
  rewrite !sent_batches_app.
  destruct (start_gate_probes_silent e_start) as [-> _].
  destruct (end_gate_probes_silent e_end w1) as [-> _].
  cbn [sent_batches app]. rewrite !app_nil_r, <- app_assoc. reflexivity.
Qed.

Lemma phrase_cycle_restores_witness :
  cron_jobs initial_world = []
  /\ start_gate_open (awake_env true false true) = true
  /\ reader_running asleep_env = true
  /\ marker_present asleep_env = true
  /\ sent_batches
       (trace (run_calls [ PhraseStarted (awake_env true false true);
                           PhraseEnded asleep_env;
                           TimerFires asleep_env ] initial_world))
     = [ commands;
         [ "enableSpeechInterruptForCharacters";
           "enableSpeakTypedCharacters" ] ].
Proof.
  repeat (split; [reflexivity|]).
  apply (phrase_cycle_restores (awake_env true false true) asleep_env
           asleep_env initial_world (reply true false true));
    try reflexivity.
  vm_compute. discriminate.
Defined.

(** ** What is ever sent *)

Lemma recorded_enable results :
  Forall (fun c => In c enable_commands) (recorded results).
Proof.
  induction results as [|[command value] results IH]; [constructor|].
  cbn [recorded flat_map fst snd]. fold (recorded results).
  destruct (matches_case command) eqn:Hm; [|done].
  destruct (truthy value); [|done].
  cbn [andb app]. constructor; [|done].
  apply matches_case_cases in Hm as [-> | [-> | ->]]; vm_compute; tauto.
Qed.

Lemma commands_known : known_batch commands.
Proof. by left. Qed.

Lemma step_only_known w c : only_known w -> only_known (step w c).
Proof.
  intros [Hpend Hsent]. destruct c as [e|e|e]; cbn [step].
  - destruct (start_gate_open e) eqn:Hgate.
    + destruct (ipc_reply e commands) as [results|x] eqn:Hreply.
      * rewrite (disable_interrupt_open e w results) by done. split.
        -- unfold pending. cbn [snd nvda heap reenable_commands].
           rewrite deref_new_object. apply recorded_enable.
        -- cbn [snd trace]. rewrite !sent_batches_app.
           destruct (start_gate_probes_silent e) as [-> _].
           apply Forall_app. split; [done|].
           constructor; [apply commands_known|constructor].
      * rewrite (disable_interrupt_channel_raises e w x) by done. split.
        -- done.
        -- cbn [snd trace add_trace]. rewrite !sent_batches_app.
           destruct (start_gate_probes_silent e) as [-> _].
           apply Forall_app. split; [done|].
           constructor; [apply commands_known|constructor].
    + rewrite disable_interrupt_shut by done. split; [done|].
      cbn [snd trace add_trace]. rewrite sent_batches_app.
      destruct (start_gate_probes_silent e) as [-> _]. by rewrite app_nil_r.
  - destruct (enable_interrupt_frame e w) as (w' & -> & Hr & Hh & Hs).
    split.
    + unfold pending. cbn [snd]. by rewrite Hr, Hh.
    + cbn [snd]. by rewrite Hs.
  - unfold fire. destruct (cron_jobs w) as [|[d []] js]; [done|].
    cbn [action]. rewrite call_closure_eval. cbn [snd]. split; [done|].
    cbn [trace add_trace]. rewrite sent_batches_app.
    apply Forall_app. split; [done|].
    constructor; [|constructor]. right. exact Hpend.
Qed.

(** X2: whatever the speech engine and the timer do from process start on,
    every batch the module hands to the command channel is either the fixed
    batch of three queries and three disable commands or consists of enable
    commands of the three behaviours only; and nothing but such enable
    commands is ever pending. *)
Theorem only_known_batches_sent cs :
  Forall known_batch (sent_batches (trace (run_calls cs initial_world)))
  /\ Forall (fun c => In c enable_commands)
       (pending (run_calls cs initial_world)).
Proof.
  assert (forall w, only_known w -> only_known (run_calls cs w)) as Hrun.
  { induction cs as [|c cs IH]; intros w Hw; [done|].
    unfold run_calls. cbn [fold_left]. apply IH. by apply step_only_known. }
  destruct (Hrun initial_world) as [Hpend Hsent]; [|done].
  split; constructor.
Qed.

(** ** Calls that leave everything alone *)

Lemma only_probes_refl w : only_probes w w.
Proof. by repeat split. Qed.

Lemma only_probes_trans w1 w2 w3 :
  only_probes w1 w2 -> only_probes w2 w3 -> only_probes w1 w3.
Proof.
  intros (H1 & H2 & H3 & H4 & H5) (K1 & K2 & K3 & K4 & K5).
  repeat split; congruence.
Qed.

Lemma disable_interrupt_shut_only_probes e w :
  start_gate_open e = false -> only_probes w (snd (disable_interrupt e w)).
Proof.
  intros Hgate. rewrite disable_interrupt_shut by done.
  destruct (start_gate_probes_silent e) as [Hs Hj].
  repeat split; cbn [snd trace add_trace];
    by rewrite ?sent_batches_app, ?scheduled_app, ?Hs, ?Hj, ?app_nil_r.
Qed.

Lemma enable_interrupt_shut_only_probes e w :
  end_gate_open e w = false -> only_probes w (snd (enable_interrupt e w)).
Proof.
  intros Hgate. rewrite enable_interrupt_shut by done.
  destruct (end_gate_probes_silent e w) as [Hs Hj].
  repeat split; cbn [snd trace add_trace];
    by rewrite ?sent_batches_app, ?scheduled_app, ?Hs, ?Hj, ?app_nil_r.
Qed.

(** X3: once [pre_phrase_sent] is false, as it is after a phrase end that
    scheduled the restore, phrase starts and phrase ends that arrive in
    sleep mode do nothing, however many there are: no batch is sent, no
    further job is scheduled, and both attributes, the object store and the
    job queue stay as they are. *)
Theorem asleep_inert cs : forall w,
  pre_phrase_sent (nvda w) = false ->
  forallb asleep_boundary cs = true ->
  nvda (run_calls cs w) = nvda w
  /\ heap (run_calls cs w) = heap w
  /\ cron_jobs (run_calls cs w) = cron_jobs w
  /\ sent_batches (trace (run_calls cs w)) = sent_batches (trace w)
  /\ scheduled (trace (run_calls cs w)) = scheduled (trace w).
Proof.
  induction cs as [|c cs IH]; intros w Hflag Hcs; [by repeat split|].
  cbn [forallb] in Hcs. apply andb_true_iff in Hcs as [Hc Hcs].
  unfold run_calls. cbn [fold_left]. fold (run_calls cs (step w c)).
  assert (only_probes w (step w c)) as Hstep.
  { destruct c as [e|e|e]; cbn [asleep_boundary step] in *; [| |done].
    - apply disable_interrupt_shut_only_probes. unfold start_gate_open.
      rewrite Hc. cbn [negb]. by rewrite andb_false_r.
    - apply enable_interrupt_shut_only_probes. unfold end_gate_open.
      rewrite Hc, Hflag. cbn [negb andb]. by rewrite andb_false_r. }
  apply (only_probes_trans w (step w c)); [done|].
  apply IH; [|done]. destruct Hstep as [-> _]. done.
Qed.

Lemma asleep_inert_witness :
  pre_phrase_sent (nvda race_scheduled) = false
  /\ cron_jobs race_scheduled = [restore_job]
  /\ cron_jobs (run_calls [ PhraseStarted asleep_env; PhraseEnded asleep_env;
                            PhraseEnded asleep_env ] race_scheduled)
     = cron_jobs race_scheduled.
Proof.
  split; [reflexivity|]. split; [reflexivity|].
  apply (asleep_inert [ PhraseStarted asleep_env; PhraseEnded asleep_env;
                        PhraseEnded asleep_env ] race_scheduled);
    reflexivity.
Defined.

(** X4: while the reader does not run or the capability file is absent,
    phrase starts and phrase ends do nothing, whatever the state and however
    many there are: no batch is sent, no job is scheduled, and both
    attributes, the object store and the job queue stay as they are. *)
Theorem unavailable_inert cs : forall w,
  forallb unavailable_boundary cs = true ->
  nvda (run_calls cs w) = nvda w
  /\ heap (run_calls cs w) = heap w
  /\ cron_jobs (run_calls cs w) = cron_jobs w
  /\ sent_batches (trace (run_calls cs w)) = sent_batches (trace w)
  /\ scheduled (trace (run_calls cs w)) = scheduled (trace w).
Proof.
  induction cs as [|c cs IH]; intros w Hcs; [by repeat split|].
  cbn [forallb] in Hcs. apply andb_true_iff in Hcs as [Hc Hcs].
  unfold run_calls. cbn [fold_left]. fold (run_calls cs (step w c)).
  assert (only_probes w (step w c)) as Hstep.
  { destruct c as [e|e|e]; cbn [unavailable_boundary step] in *; [| |done].
    - apply disable_interrupt_shut_only_probes. unfold start_gate_open.
      apply negb_true_iff in Hc.
      destruct (reader_running e), (marker_present e), (sleep_mode e);
        done.
    - apply enable_interrupt_shut_only_probes. unfold end_gate_open.
      apply negb_true_iff in Hc.
      destruct (reader_running e), (marker_present e);
        rewrite ?andb_false_r; done. }
  apply (only_probes_trans w (step w c)); [done|].
  by apply IH.
Qed.

Lemma unavailable_inert_witness :
  forallb unavailable_boundary
    [ PhraseStarted (env_with_facts false false true);
      PhraseEnded (env_with_facts true false false);
      PhraseEnded posix_env ] = true
  /\ pending suppressing_world
     = [ "enableSpeechInterruptForCharacters";
         "enableSpeakTypedWords";
         "enableSpeakTypedCharacters" ]
  /\ cron_jobs
       (run_calls [ PhraseStarted (env_with_facts false false true);
                    PhraseEnded (env_with_facts true false false);
                    PhraseEnded posix_env ] suppressing_world)
     = cron_jobs suppressing_world.
Proof.
  split; [reflexivity|]. split; [reflexivity|].
  apply (unavailable_inert
           [ PhraseStarted (env_with_facts false false true);
             PhraseEnded (env_with_facts true false false);
             PhraseEnded posix_env ] suppressing_world).
  reflexivity.
Defined.

(** X5: where the module does not run on Windows, [SPEC_FILE] is not bound
    and there is no client library; both callbacks still return normally,
    and the only call that leaves the module is the read of the mode: the
    client is not called, no setting is read and the file system is not
    asked. *)
Theorem callbacks_off_windows e w :
  os_name e <> "nt" ->
  disable_interrupt e w = (Returns tt, add_trace w [EvScopeGet "mode"])
  /\ enable_interrupt e w = (Returns tt, add_trace w [EvScopeGet "mode"]).
Proof.
  intros Hos. assert (is_nt e = false) as Hnt.
  { unfold is_nt. by apply String.eqb_neq. }
  assert (reader_running e = false) as Hrun.
  { unfold reader_running. by rewrite Hnt. }
  split.
  - rewrite disable_interrupt_shut.
    + unfold start_gate_probes, running_probes. by rewrite Hnt, Hrun.
    + unfold start_gate_open. by rewrite Hrun.
  - rewrite enable_interrupt_shut.
    + unfold end_gate_probes, running_probes. by rewrite Hnt, Hrun.
    + unfold end_gate_open. by rewrite Hrun.
Qed.

Lemma callbacks_off_windows_witness :
  os_name posix_env <> "nt"
  /\ SPEC_FILE posix_env = None
  /\ disable_interrupt posix_env suppressing_world
     = (Returns tt, add_trace suppressing_world [EvScopeGet "mode"])
  /\ enable_interrupt posix_env suppressing_world
     = (Returns tt, add_trace suppressing_world [EvScopeGet "mode"]).
Proof.
  split; [discriminate|]. split; [reflexivity|].
  apply (callbacks_off_windows posix_env suppressing_world). discriminate.
Defined.

(** X6: the diagnostic line of [is_nvda_running]. A line is printed during
    the call exactly when the module runs on Windows, the status code is not
    0 and the setting [user.addon_debug] is truthy, and the line then carries
    the status code in decimal. *)
Theorem is_nvda_running_print e w line :
  In (EvPrint line) (trace (snd (is_nvda_running e w)))
  <-> In (EvPrint line) (trace w)
      \/ (os_name e = "nt"
          /\ nvdaController_testIfRunning (dll e) <> 0%Z
          /\ truthy (addon_debug e) = true
          /\ line = ("NVDA not running. Client response value: "
                       ++ PyStr.of_int (nvdaController_testIfRunning (dll e)))
                    %string).
Proof.
  rewrite is_nvda_running_eval. cbn [snd trace add_trace].
  rewrite in_app_iff. unfold running_probes, is_nt.
  destruct (String.eqb_spec (os_name e) "nt") as [Hos|Hos].
  - destruct (Z.eqb_spec (nvdaController_testIfRunning (dll e)) 0) as [Hc|Hc].
    + cbn [In]. intuition (try discriminate; try congruence).
    + destruct (truthy (addon_debug e)); cbn [In].
      * split.
        -- intros [H|[H|[H|[H|[]]]]]; try discriminate; [by left|].
           injection H as <-. by right.
        -- intros [H|(_ & _ & _ & ->)]; [by left|]. right. tauto.
      * intuition (try discriminate; try congruence).
  - cbn [In]. intuition.
Qed.

(** * Properties of the actions *)

(** ** Evaluation lemmas *)

Lemma only_probes_add_trace w evs :
  sent_batches evs = [] -> scheduled evs = [] ->
  only_probes w (add_trace w evs).
Proof.
  intros Hs Hj. repeat split; cbn [trace add_trace];
    by rewrite ?sent_batches_app, ?scheduled_app, ?Hs, ?Hj, ?app_nil_r.
Qed.

Lemma lift_is_nvda_running e s :
  lift (is_nvda_running e) s
  = (Done (reader_running e),
     with_core s (add_trace (core s) (running_probes e))).
Proof. unfold lift. by rewrite is_nvda_running_eval. Qed.

Lemma with_nvda_mod_press_eval g key s :
  with_nvda_mod_press g key s = (Done tt, add_ui s (mod_press_events g key)).
Proof.
  unfold with_nvda_mod_press, glue_settings_get, actions_key, actions_sleep,
    gbind, ui_emit, gret, mod_press_events, add_ui.
  cbn [core tags ui ui_jobs]. by norm_app.
Qed.

Lemma set_nvda_running_tag_eval g s :
  set_nvda_running_tag g s
  = (Done tt,
     {| core := add_trace (core s) (running_probes (base g));
        tags := if reader_running (base g)
                then ["user.nvda_running"] else [];
        ui := ui s;
        ui_jobs := ui_jobs s |}).
Proof.
  unfold set_nvda_running_tag, try_except, gbind.
  by rewrite lift_is_nvda_running.
Qed.

Lemma nvda_tts_eval g text use_clipboard s :
  is_nt (base g) = true ->
  nvda_tts g text use_clipboard s
  = if reader_running (base g)
    then (Done tt,
          add_ui (with_core s (add_trace (core s) [EvTestIfRunning]))
            (if use_clipboard
             then [UiClipRevertEnter; UiClipSetText text;
                   UiActionsSleep "50ms"]
                    ++ mod_press_events g "c" ++ [UiClipRevertExit]
             else [UiSpeakText text]))
    else (Fails (communication_error g
                   (nvdaController_testIfRunning (dll (base g)))),
          with_core s (add_trace (core s) [EvTestIfRunning])).
Proof.
  intros Hnt. unfold nvda_tts, nvda_client, reader_running. rewrite Hnt.
  unfold gbind at 1, lift, testIfRunning, bind, emit, ret. cbn [andb].
  destruct (_ =? 0)%Z; cbn [negb]; [|done].
  destruct use_clipboard; [|done].
  unfold with_clip_revert, gbind, actions_sleep, ui_emit. cbv beta iota.
  rewrite with_nvda_mod_press_eval.
  unfold add_ui, with_core. cbn [core tags ui ui_jobs]. by norm_app.
Qed.

Lemma tts_eval g text interrupt s :
  tts g text interrupt s
  = if truthy (setting g "user.tts_via_screenreader")
    then nvda_tts g text false
           (add_ui s [UiSettingsGet "user.tts_via_screenreader"])
    else (Done tt,
          add_ui s [UiSettingsGet "user.tts_via_screenreader";
                    UiBaseWinTts text interrupt]).
Proof.
  unfold tts, glue_settings_get, gbind, gret, base_win_tts, ui_emit.
  destruct (truthy _); [done|].
  unfold add_ui. cbn [core tags ui ui_jobs]. by norm_app.
Qed.



(** ** Frames *)

Lemma core_frame_same_core {A} (m : G A) :
  (forall s, core (snd (m s)) = core s) -> core_frame m.
Proof. intros H s. rewrite H. apply only_probes_refl. Qed.

Lemma core_frame_gbind {A B} (m : G A) (k : A -> G B) :
  core_frame m -> (forall a, core_frame (k a)) -> core_frame (gbind m k).
Proof.
  intros Hm Hk s. unfold gbind. specialize (Hm s).
  destruct (m s) as [[a|x] s1]; cbn [snd] in *; [|done].
  apply (only_probes_trans _ (core s1)); [done|apply Hk].
Qed.

Lemma core_frame_lift_is_nvda_running e :
  core_frame (lift (is_nvda_running e)).
Proof.
  intros s. rewrite lift_is_nvda_running. cbn [snd core with_core].
  apply only_probes_add_trace; apply running_probes_silent.
Qed.

Lemma core_frame_ui_emit ev : core_frame (ui_emit ev).
Proof. by apply core_frame_same_core. Qed.

Lemma core_frame_with_nvda_mod_press g key :
  core_frame (with_nvda_mod_press g key).
Proof.
  apply core_frame_same_core. intros s.
  by rewrite with_nvda_mod_press_eval.
Qed.

Lemma core_frame_nvda_tts g text use_clipboard :
  core_frame (nvda_tts g text use_clipboard).
Proof.
  intros s. destruct (is_nt (base g)) eqn:Hnt.
  - rewrite nvda_tts_eval by done.
    destruct (reader_running (base g)); cbn [snd core add_ui with_core];
      by apply only_probes_add_trace.
  - unfold nvda_tts, nvda_client. rewrite Hnt. apply only_probes_refl.
Qed.

Lemma core_frame_tts g text interrupt : core_frame (tts g text interrupt).
Proof.
  intros s. rewrite tts_eval. destruct (truthy _).
  - apply (core_frame_nvda_tts g text false
             (add_ui s [UiSettingsGet "user.tts_via_screenreader"])).
  - apply only_probes_refl.
Qed.

Lemma core_frame_user_tts g text : core_frame (user_tts g text).
Proof.
  intros s. unfold user_tts. destruct (nvda_context_active g s).
  - apply core_frame_tts.
  - apply only_probes_refl.
Qed.

Lemma core_frame_toggle_nvda g g' : core_frame (toggle_nvda g g').
Proof.
  unfold toggle_nvda.
  apply core_frame_gbind; [apply core_frame_lift_is_nvda_running|].
  intros running. destruct running; cbn [negb].
  - apply core_frame_gbind; [apply core_frame_lift_is_nvda_running|].
    intros []; [|by apply core_frame_same_core].
    apply core_frame_gbind; [apply core_frame_with_nvda_mod_press|].
    intros _. apply core_frame_gbind; [apply core_frame_user_tts|].
    intros _. by apply core_frame_same_core.
  - apply core_frame_gbind; [apply core_frame_ui_emit|].
    intros _. apply core_frame_user_tts.
Qed.

Lemma core_frame_restart_nvda g : core_frame (restart_nvda g).
Proof.
  unfold restart_nvda.
  apply core_frame_gbind; [apply core_frame_lift_is_nvda_running|].
  intros []; [|by apply core_frame_same_core].
  apply core_frame_gbind; [apply core_frame_with_nvda_mod_press|].
  intros _. apply core_frame_gbind; [apply core_frame_ui_emit|].
  intros _. apply core_frame_gbind; [apply core_frame_ui_emit|].
  intros _. apply core_frame_gbind; [by apply core_frame_same_core|].
  intros _. apply core_frame_user_tts.
Qed.

(** ** The tag *)

(** X7: [set_nvda_running_tag] never raises and leaves the context with the
    tag [user.nvda_running] exactly when the module runs on Windows and the
    status code is 0; whatever tags were set before are replaced, so no other
    tag remains. It presses no key, schedules nothing and leaves the
    coordinator alone. *)
Theorem set_nvda_running_tag_tags g s :
  exists s',
    set_nvda_running_tag g s = (Done tt, s')
    /\ (In "user.nvda_running" (tags s')
        <-> os_name (base g) = "nt"
            /\ nvdaController_testIfRunning (dll (base g)) = 0%Z)
    /\ (forall t, In t (tags s') -> t = "user.nvda_running")
    /\ ui s' = ui s /\ ui_jobs s' = ui_jobs s
    /\ only_probes (core s) (core s').
Proof.
  eexists. split; [apply set_nvda_running_tag_eval|].
  cbn [core tags ui ui_jobs].
  assert (reader_running (base g) = true
          <-> os_name (base g) = "nt"
              /\ nvdaController_testIfRunning (dll (base g)) = 0%Z) as Hrun.
  { unfold reader_running, is_nt.
    by rewrite andb_true_iff, String.eqb_eq, Z.eqb_eq. }
  split.
  { rewrite <- Hrun. destruct (reader_running (base g)); cbn [In].
    - intuition.
    - intuition discriminate. }
  split.
  { intros t. destruct (reader_running (base g)); cbn [In]; intuition. }
  repeat (split; [done|]).
  apply only_probes_add_trace; apply running_probes_silent.
Qed.

(** ** Speech through the reader *)

(** X8: on Windows [nvda_tts] asks the client for its status before it does
    anything else and returns normally exactly when the code is 0, that is
    exactly when [is_nvda_running] answers [True]. With another code it
    raises the communication error for that code, having spoken nothing,
    touched neither clipboard nor keys and scheduled nothing. With code 0
    it either hands the text to the client once or, with [use_clipboard],
    sets the clipboard and presses the NVDA key with c between entering and
    leaving [clip.revert()]. *)
Theorem nvda_tts_checks_reader g text use_clipboard s :
  os_name (base g) = "nt" ->
  let code := nvdaController_testIfRunning (dll (base g)) in
  let r := nvda_tts g text use_clipboard s in
  (fst r = Done tt <-> code = 0%Z)
  /\ (fst r = Done tt
      <-> fst (is_nvda_running (base g) (core s)) = Returns true)
  /\ (fst r = Done tt \/ fst r = Fails (communication_error g code))
  /\ ui (snd r)
     = ui s
         ++ (if (code =? 0)%Z
             then if use_clipboard
                  then [UiClipRevertEnter; UiClipSetText text;
                        UiActionsSleep "50ms"]
                         ++ mod_press_events g "c" ++ [UiClipRevertExit]
                  else [UiSpeakText text]
             else [])
  /\ ui_jobs (snd r) = ui_jobs s
  /\ tags (snd r) = tags s.
Proof.
  intros Hos. cbn zeta.
  assert (is_nt (base g) = true) as Hnt.
  { unfold is_nt. by apply String.eqb_eq. }
  rewrite nvda_tts_eval by done. rewrite is_nvda_running_eval.
  unfold reader_running. rewrite Hnt. cbn [andb fst].
  destruct (Z.eqb_spec (nvdaController_testIfRunning (dll (base g))) 0)
    as [Hc|Hc]; cbn [fst snd ui ui_jobs tags add_ui with_core].
  - repeat split; try done. by left.
  - rewrite app_nil_r. repeat split; try done; try (by right).
Qed.

Lemma nvda_tts_checks_reader_witness :
  os_name (base (glue_env (status_env 1717) true)) = "nt"
  /\ fst (nvda_tts (glue_env (status_env 1717) true) "hello" true
            (session_of initial_world))
     = Fails (PlainException
                "Error communicating between Talon and NVDA: [WinError 1717]")
  /\ ui (snd (nvda_tts (glue_env (status_env 1717) true) "hello" true
                (session_of initial_world))) = [].
Proof.
  split; [reflexivity|].
  destruct (nvda_tts_checks_reader (glue_env (status_env 1717) true)
              "hello" true (session_of initial_world) eq_refl)
    as (_ & _ & [Hdone|Hfail] & Hui & _).
  - discriminate Hdone.
  - split; [exact Hfail|exact Hui].
Defined.

(** X9: the tag guards the speech. When [set_nvda_running_tag] has just set
    the tag [user.nvda_running], a call of [nvda_tts] in the same
    environment returns normally, by either route. *)
Theorem tagged_nvda_tts_returns g text use_clipboard s :
  In "user.nvda_running" (tags (snd (set_nvda_running_tag g s))) ->
  exists s',
    nvda_tts g text use_clipboard (snd (set_nvda_running_tag g s))
    = (Done tt, s').
Proof.
  rewrite set_nvda_running_tag_eval. cbn [snd tags].
  destruct (reader_running (base g)) eqn:Hrun; [|intros []].
  intros _. rewrite nvda_tts_eval by by apply reader_running_nt.
  rewrite Hrun. by eexists.
Qed.

Lemma tagged_nvda_tts_returns_witness :
  tags (snd (set_nvda_running_tag (glue_env (status_env 0) true)
               (session_of initial_world))) = ["user.nvda_running"]
  /\ exists s',
       nvda_tts (glue_env (status_env 0) true) "hello" false
         (snd (set_nvda_running_tag (glue_env (status_env 0) true)
                 (session_of initial_world)))
       = (Done tt, s').
Proof.
  split; [reflexivity|].
  apply (tagged_nvda_tts_returns (glue_env (status_env 0) true) "hello"
           false (session_of initial_world)).
  left. reflexivity.
Defined.

(** X10: on Windows [tts] raises only when speech goes through the screen
    reader and the status code is not 0. Through the screen reader the
    argument [interrupt] has no effect at all; otherwise the text goes to
    [base_win_tts] with [interrupt] as given and the client library is not
    called. *)
Theorem tts_outcome g text interrupt s :
  os_name (base g) = "nt" ->
  let code := nvdaController_testIfRunning (dll (base g)) in
  let r := tts g text interrupt s in
  (fst r = Done tt
   <-> truthy (setting g "user.tts_via_screenreader") = false
       \/ code = 0%Z)
  /\ if truthy (setting g "user.tts_via_screenreader")
     then r = tts g text (negb interrupt) s
     else ui (snd r)
          = ui s ++ [UiSettingsGet "user.tts_via_screenreader";
                     UiBaseWinTts text interrupt]
          /\ core (snd r) = core s.
Proof.
  intros Hos. cbn zeta.
  assert (is_nt (base g) = true) as Hnt.
  { unfold is_nt. by apply String.eqb_eq. }
  rewrite !tts_eval.
  destruct (truthy (setting g "user.tts_via_screenreader")).
  - split; [|done]. rewrite nvda_tts_eval by done.
    unfold reader_running. rewrite Hnt. cbn [andb].
    destruct (Z.eqb_spec (nvdaController_testIfRunning (dll (base g))) 0)
      as [Hc|Hc]; cbn [fst].
    + split; [by right|done].
    + split; [done|]. intros [H|H]; [discriminate|done].
  - cbn [fst snd ui core add_ui]. split; [|done]. split; [by left|done].
Qed.

Lemma tts_outcome_witness :
  os_name (base (glue_env (status_env 1717) false)) = "nt"
  /\ fst (tts (glue_env (status_env 1717) false) "hello" true
            (session_of initial_world)) = Done tt
  /\ core (snd (tts (glue_env (status_env 1717) false) "hello" true
                  (session_of initial_world))) = initial_world.
Proof.
  split; [reflexivity|].
  destruct (tts_outcome (glue_env (status_env 1717) false) "hello" true
              (session_of initial_world) eq_refl) as [Hiff Hrest].
  split.
  - apply Hiff. left. reflexivity.
  - exact (proj2 Hrest).
Defined.

(** ** Turning the reader on and off *)


(** The stale tag at work: the reader has stopped, the tag is still set
    and speech goes through the reader; [toggle_nvda] presses ctrl-alt-n
    and then raises. *)
Lemma toggle_nvda_stale_tag :
  fst (toggle_nvda (glue_env (status_env 1717) true)
         (glue_env (status_env 1717) true) stale_tag_session)
  = Fails (PlainException
             "Error communicating between Talon and NVDA: [WinError 1717]")
  /\ ui (snd (toggle_nvda (glue_env (status_env 1717) true)
                (glue_env (status_env 1717) true) stale_tag_session))
     = [ UiKey "ctrl-alt-n"; UiSettingsGet "user.tts_via_screenreader" ].
Proof. by split. Qed.

(** ** What the actions leave alone *)

(** X12: none of [set_nvda_running_tag], [with_nvda_mod_press],
    [toggle_nvda], [restart_nvda], [nvda_tts] and [tts] touches the
    coordinator: [pre_phrase_sent], [reenable_commands], the list objects
    and the queue of restore jobs are as before, no command batch is sent
    and no restore is scheduled. *)
Theorem actions_leave_coordinator g g' key text flag s :
  only_probes (core s) (core (snd (set_nvda_running_tag g s)))
  /\ only_probes (core s) (core (snd (with_nvda_mod_press g key s)))
  /\ only_probes (core s) (core (snd (toggle_nvda g g' s)))
  /\ only_probes (core s) (core (snd (restart_nvda g s)))
  /\ only_probes (core s) (core (snd (nvda_tts g text flag s)))
  /\ only_probes (core s) (core (snd (tts g text flag s))).
Proof.
  split; [|split; [|split; [|split; [|split]]]].
  - rewrite set_nvda_running_tag_eval. cbn [snd core].
    apply only_probes_add_trace; apply running_probes_silent.
  - apply core_frame_with_nvda_mod_press.
  - apply core_frame_toggle_nvda.
  - apply core_frame_restart_nvda.
  - apply core_frame_nvda_tts.
  - apply core_frame_tts.
Qed.
